(** * UESTC-SDK: semester codec and the Application facade

    A shallow embedding of [src/application.ts] (the [Application] class)
    and of the [Encoder] helper that the test-suite of the repository
    exercises ([test/helpers/encoder]).

    Conventions.
    - JavaScript numbers that hold years, semester numbers and ids are [Z].
    - JavaScript strings are [string]; non-ASCII labels are their UTF-8
      bytes, which keeps string equality exactly as it is on code units.
    - [cacher.users] is a JavaScript object used as a dictionary from
      student id to [User] instance: a [gmap string loc] over a heap of
      [User] objects, so that "the same instance" is "the same location";
      a read also sees the names inherited from [Object.prototype].
    - An Rx observable is its subscription function: run in the state of
      the moment of subscription, it yields the notifications it delivers,
      in delivery order, and the state it leaves behind. How long a
      delivery takes is not part of the model.
    - The collaborators that [application.ts] obtains from the injector
      (Fetcher, Seeker, [user.confirm]) are parameters: any behaviour of
      theirs is covered. *)

From Stdlib Require Import ZArith String Ascii List Lia.
From stdpp Require Import base option gmap strings list.

Open Scope string_scope.
Open Scope Z_scope.

(* ===================================================================== *)
(** ** Results of fallible helpers *)

Inductive Result (E A : Type) : Type :=
| Ok (a : A)
| Err (e : E).
Arguments Ok {E A} a.
Arguments Err {E A} e.

(* ===================================================================== *)
(** ** Encoder (src/helpers/encoder) *)

Module Encoder.

(** The error kinds the codec raises. *)
Inductive Error : Type :=
| UnknownLabel
| MalformedSemesterString.

(** Modelled from the spec: the institution constants of the codec, which
    live in the missing [src/helpers/encoder]. The spec asks for them as
    configuration: the baseline year, the number of semesters per
    academic year and, when the institution defines one, the length in
    years of a full program. *)
Record Config : Type := {
  baselineYear : Z;
  semesterCardinality : Z;
  programDuration : option Z
}.

(** Modelled from the spec: the constants the fixture of the test-suite
    constrains (grade 2012, semester 1 has id 13; two semesters a year). *)
Definition sample : Config :=
  {| baselineYear := 2006; semesterCardinality := 2; programDuration := None |}.

(** The same institution with a four-year program. *)
Definition sampleClamped : Config :=
  {| baselineYear := 2006; semesterCardinality := 2; programDuration := Some 4 |}.

(** What the codec needs of a user: [getGrade()]. The tests pass both an
    object literal with only this method and a [User]. *)
Class UserLike (U : Type) : Type := getGrade : U -> Z.

(** The object literal [{ getGrade: function () { return g; } }]. *)
Record GradeOnly : Type := { gradeOnly : Z }.
#[export] Instance GradeOnly_UserLike : UserLike GradeOnly := gradeOnly.

(** Modelled from the spec: a first argument that is numerically large
    (at least 1000) is an absolute calendar year. *)
Definition yearThreshold : Z := 1000.

(** Modelled from the spec: [SemesterId = (year - baselineYear) *
    semesterCardinality + semesterNumber]. *)
Definition semesterId (cfg : Config) (year semesterNumber : Z) : Z :=
  (year - baselineYear cfg) * semesterCardinality cfg + semesterNumber.

(** Modelled from the spec: the year a first argument of [getSemester]
    stands for: itself when it is an absolute year, otherwise
    [grade + (yearOrGradeRelative - 1)]. *)
Definition resolveYear (yearOrGradeRelative grade : Z) : Z :=
  if yearThreshold <=? yearOrGradeRelative
  then yearOrGradeRelative
  else grade + (yearOrGradeRelative - 1).

(** Modelled from the spec: [Encoder.getSemester(yearOrGradeRelative,
    semesterNumber, userLike)] of the missing [src/helpers/encoder]. *)
Definition getSemester {U} `{UserLike U} (cfg : Config)
    (yearOrGradeRelative semesterNumber : Z) (user : U) : Z :=
  semesterId cfg (resolveYear yearOrGradeRelative (getGrade user)) semesterNumber.

(** *** Weekday labels *)

(** The closed vocabulary, Monday first. *)
Definition weekdayLabels : list string :=
  [ "星期一"; "星期二"; "星期三"; "星期四"; "星期五"; "星期六"; "星期日" ].

(** Position of the first label equal to [label], counted from [from]. *)
Fixpoint indexFrom (from : Z) (label : string) (labels : list string) : option Z :=
  match labels with
  | [] => None
  | l :: rest => if String.eqb label l then Some from
                 else indexFrom (from + 1) label rest
  end.

(** Modelled from the spec: [Encoder.parseDayofWeek(label)] of the
    missing [src/helpers/encoder]: the index 1..7 of a label of the
    vocabulary, [UnknownLabel] for any other text. *)
Definition parseDayofWeek (label : string) : Result Error Z :=
  match indexFrom 1 label weekdayLabels with
  | Some i => Ok i
  | None => Err UnknownLabel
  end.

(** *** Semester strings *)

Definition isDigit (c : ascii) : bool :=
  let n := nat_of_ascii c in ((48 <=? n) && (n <=? 57))%nat.

Definition digitValue (c : ascii) : Z := Z.of_nat (nat_of_ascii c) - 48.

Fixpoint allDigits (s : string) : bool :=
  match s with
  | EmptyString => true
  | String c rest => isDigit c && allDigits rest
  end.

(** Value of a run of decimal digits, most significant first. *)
Fixpoint digitsValue (acc : Z) (s : string) : Z :=
  match s with
  | EmptyString => acc
  | String c rest => digitsValue (10 * acc + digitValue c) rest
  end.

(** A non-empty run of decimal digits is a number; nothing else is. *)
Definition parseNumber (s : string) : option Z :=
  match s with
  | EmptyString => None
  | _ => if allDigits s then Some (digitsValue 0 s) else None
  end.

(** [splitAtChar sep s]: the text before the first [sep] and the text
    after it; [None] when [s] holds no [sep]. *)
Fixpoint splitAtChar (sep : ascii) (s : string) : option (string * string) :=
  match s with
  | EmptyString => None
  | String c rest =>
      if Ascii.eqb c sep then Some (EmptyString, rest)
      else match splitAtChar sep rest with
           | Some (before, after) => Some (String c before, after)
           | None => None
           end
  end.

Definition hyphen : ascii := "-"%char.
Definition blank : ascii := " "%char.

(** Modelled from the spec: [Encoder.parseSemester(text)] of the missing
    [src/helpers/encoder]: text of the shape
    [<startYear>-<endYear> <semesterNumber>], the three parts decimal
    numbers, with [endYear = startYear + 1] and the semester number
    within [1 .. semesterCardinality]; anything else is
    [MalformedSemesterString]. *)
Definition parseSemester (cfg : Config) (text : string) : Result Error (Z * Z * Z) :=
  match splitAtChar hyphen text with
  | None => Err MalformedSemesterString
  | Some (startText, rest) =>
      match splitAtChar blank rest with
      | None => Err MalformedSemesterString
      | Some (endText, semesterText) =>
          match parseNumber startText, parseNumber endText, parseNumber semesterText with
          | Some startYear, Some endYear, Some semesterNumber =>
              if (endYear =? startYear + 1)
                 && (1 <=? semesterNumber)
                 && (semesterNumber <=? semesterCardinality cfg)
              then Ok (startYear, endYear, semesterNumber)
              else Err MalformedSemesterString
          | _, _, _ => Err MalformedSemesterString
          end
      end
  end.

(** The text the pattern describes: three digit runs around ["-"] and
    a blank. *)
Definition semesterText (startText endText semesterNumberText : string) : string :=
  startText ++ String hyphen (endText ++ String blank semesterNumberText).

(** No character of [s] is [sep]. *)
Fixpoint lacks (sep : ascii) (s : string) : Prop :=
  match s with
  | EmptyString => True
  | String c rest => c <> sep /\ lacks sep rest
  end.

(** The pattern of the spec, as a relation between a text and the
    triple it denotes. *)
Definition denotes (cfg : Config) (text : string) (triple : Z * Z * Z) : Prop :=
  exists startText endText numberText : string,
    text = semesterText startText endText numberText
    /\ parseNumber startText = Some (triple.1.1)
    /\ parseNumber endText = Some (triple.1.2)
    /\ parseNumber numberText = Some (triple.2)
    /\ triple.1.2 = triple.1.1 + 1
    /\ 1 <= triple.2 <= semesterCardinality cfg.

End Encoder.

(* ===================================================================== *)
(** ** Exceptions (src/models/exception) *)

(** Modelled from the spec: the exception of the missing
    [src/models/exception], as [application.ts] builds it: a numeric
    code and a message. *)
Record Exception : Type := { code : Z; message : string }.

(** [exceptionFactory.$new(code, message)]. *)
Definition exceptionFactory_new (c : Z) (m : string) : Exception :=
  {| code := c; message := m |}.

(** The code of the authorization error. *)
Definition AuthorizationRequired : Z := 401.

(* ===================================================================== *)
(** ** The fragment of Rx the facade uses

    [rx] is a library the repository depends on; the four operators
    [application.ts] calls are given with the meaning its documentation
    gives them. *)

Module Rx.

(** What an observer is told. *)
Inductive Notification (A : Type) : Type :=
| OnNext (a : A)
| OnError (e : Exception)
| OnCompleted.
Arguments OnNext {A} a.
Arguments OnError {A} e.
Arguments OnCompleted {A}.

(** How a subscription ends: not at all, by completion or by an error. *)
Inductive Terminal : Type :=
| Open
| Completed
| Failed (e : Exception).

(** All a subscription delivers: its values in order, then its end. *)
Record Outcome (A : Type) : Type := { values : list A; terminal : Terminal }.
Arguments values {A} o.
Arguments terminal {A} o.

Definition emit {A} (a : A) (o : Outcome A) : Outcome A :=
  {| values := a :: values o; terminal := terminal o |}.

Definition silent {A} (t : Terminal) : Outcome A :=
  {| values := []; terminal := t |}.

(** The observer contract, [OnNext* (OnError | OnCompleted)?]: what
    follows the first terminal notification is dropped. *)
Fixpoint deliver {A} (ns : list (Notification A)) : Outcome A :=
  match ns with
  | [] => silent Open
  | OnNext a :: rest => emit a (deliver rest)
  | OnError e :: _ => silent (Failed e)
  | OnCompleted :: _ => silent Completed
  end.

Section Observables.
(** The state subscriptions run in. *)
Context {S : Type}.

Definition Observable (A : Type) : Type := S -> Outcome A * S.

(** [Observable.create(subscribe)]: [subscribe] talks to the observer
    while the subscription is made. *)
Definition create {A} (subscribe : S -> list (Notification A) * S) : Observable A :=
  fun s => let '(ns, s') := subscribe s in (deliver ns, s').

(** [first.merge(second)], for a [first] that delivers while it is
    being subscribed (as the sources built with [create] do): its
    notifications come before those of [second]. An error of either
    source ends the merged stream at once; completion needs both.
    Whether [second] is still subscribed after [first] has failed
    differs between releases of the library: [subscribesAfterError]
    says so, and then what [second] delivers is dropped. (Some releases
    subscribe [second] only after the error has reached the subscriber,
    so that the handler of a [catch] downstream is subscribed before
    [second]; here [second] comes first.) *)
Definition merge {A} (subscribesAfterError : bool)
    (first second : Observable A) : Observable A :=
  fun s =>
    let '(o1, s1) := first s in
    match terminal o1 with
    | Failed e =>
        (o1, if subscribesAfterError then snd (second s1) else s1)
    | t1 =>
        let '(o2, s2) := second s1 in
        ({| values := values o1 ++ values o2;
            terminal := match terminal o2 with
                        | Failed e => Failed e
                        | Completed => match t1 with Completed => Completed | _ => Open end
                        | Open => Open
                        end |}, s2)
    end.

(** [source.catch(handler)]: on an error of [source] the subscription
    goes on with [handler], the observable given as argument. *)
Definition catch {A} (source handler : Observable A) : Observable A :=
  fun s =>
    let '(o1, s1) := source s in
    match terminal o1 with
    | Failed _ =>
        let '(o2, s2) := handler s1 in
        ({| values := values o1 ++ values o2; terminal := terminal o2 |}, s2)
    | _ => (o1, s1)
    end.

(** [source.subscribe(onNext)]: [onNext] runs for each value. An error
    goes to the default handler of the library, which rethrows it
    outside of the subscriber: the state is left as the source left
    it. *)
Definition subscribe {A} (source : Observable A) (onNext : A -> S -> S) (s : S) : S :=
  let '(o, s') := source s in
  fold_left (fun st a => onNext a st) (values o) s'.

End Observables.
Arguments Observable S A : clear implicits.

End Rx.

(* ===================================================================== *)
(** ** JavaScript references *)

Definition loc : Type := positive.

(** What a variable or a property of the facade can hold: [undefined],
    [null], an instance, or the member of the given name that every
    ordinary object inherits from [Object.prototype]. *)
Inductive JsRef : Type :=
| undefined
| null
| ref (l : loc)
| inherited (name : string).

(** An object or a function is truthy, [null] and [undefined] are not. *)
Definition truthy (v : JsRef) : bool :=
  match v with
  | ref _ | inherited _ => true
  | undefined | null => false
  end.

(** The names an ordinary object inherits from [Object.prototype]: its
    methods and the accessor [__proto__]. *)
Definition objectPrototypeNames : list string :=
  [ "constructor"; "hasOwnProperty"; "isPrototypeOf"; "propertyIsEnumerable";
    "toLocaleString"; "toString"; "valueOf"; "__proto__";
    "__defineGetter__"; "__defineSetter__"; "__lookupGetter__"; "__lookupSetter__" ].

Definition isInherited (key : string) : bool :=
  existsb (String.eqb key) objectPrototypeNames.

(** [a || b]. *)
Definition jsOr (a b : JsRef) : JsRef := if truthy a then a else b.

(** [object[key]] on an ordinary object used as a dictionary of
    instances, as [cacher.users] is: the entry stored under [key]; without
    one, the member of that name inherited from [Object.prototype];
    [undefined] when there is neither. (An instance stored under the name
    [__proto__] is read back under that name, as here; that it also
    becomes the prototype of the dictionary, and what other names then
    inherit from the missing [User] class, is not part of the model.) *)
Definition jsGet (object : gmap string loc) (key : string) : JsRef :=
  match object !! key with
  | Some l => ref l
  | None => if isInherited key then inherited key else undefined
  end.

(* ===================================================================== *)
(** ** Users (src/models/user) *)

(** Modelled from the spec: the user of the missing [src/models/user],
    with what [application.ts] gives it and reads of it: the student id
    and the password of the constructor, and the flag [isConfirmed]. *)
Record User : Type := {
  id : string;
  password : string;
  isConfirmed : bool
}.

(** Modelled from the spec: [new User(id, password)], also
    [userFactory.$new(id, password)]: a user that is not confirmed yet. *)
Definition User_new (i p : string) : User :=
  {| id := i; password := p; isConfirmed := false |}.

(* ===================================================================== *)
(** ** The Application facade (src/application.ts) *)

Section Application.

(** The models and the option interfaces the facade only passes along,
    and the state of its collaborators other than [cacher.users]: the
    network and the cached courses and people. *)
Context {Course Person CoursesOption PeopleOption Env : Type}.

(** What a deprecated node-style callback is called with. *)
Inductive Payload : Type :=
| Courses (cs : list Course)
| People (ps : list Person)
| Flag (b : bool).

(** The calls that leave the facade, in the order they are made. *)
Inductive Event : Type :=
| FetcherSearchForCourses (opt : CoursesOption)
| FetcherSearchForPeople (opt : PeopleOption)
| SeekerSearchForCourses (opt : CoursesOption)
| SeekerSearchForPeople (opt : PeopleOption)
| UserConfirm (user : loc)
| Callback (callback : nat) (error : option Exception) (result : option Payload).

Definition isFetcherCall (ev : Event) : bool :=
  match ev with
  | FetcherSearchForCourses _ | FetcherSearchForPeople _ => true
  | _ => false
  end.

Definition isSeekerCall (ev : Event) : bool :=
  match ev with
  | SeekerSearchForCourses _ | SeekerSearchForPeople _ => true
  | _ => false
  end.

(** The call count of a test double of the Fetcher, of the Seeker. *)
Definition fetcherInvocations (events : list Event) : nat :=
  length (List.filter isFetcherCall events).

Definition seekerInvocations (events : list Event) : nat :=
  length (List.filter isSeekerCall events).

(** The state an [Application] runs in. *)
Record World : Type := {
  users : gmap string loc;      (* cacher.users *)
  heap : gmap loc User;         (* the User instances *)
  currentUser : JsRef;          (* this.currentUser: null or an instance *)
  env : Env;                    (* the collaborators' own state *)
  log : list Event              (* calls made so far, oldest first *)
}.

Definition setUsers (m : gmap string loc) (w : World) : World :=
  {| users := m; heap := heap w; currentUser := currentUser w; env := env w; log := log w |}.
Definition setHeap (h : gmap loc User) (w : World) : World :=
  {| users := users w; heap := h; currentUser := currentUser w; env := env w; log := log w |}.
Definition setCurrentUser (v : JsRef) (w : World) : World :=
  {| users := users w; heap := heap w; currentUser := v; env := env w; log := log w |}.
Definition setEnv (e : Env) (w : World) : World :=
  {| users := users w; heap := heap w; currentUser := currentUser w; env := e; log := log w |}.
Definition recordAll (evs : list Event) (w : World) : World :=
  {| users := users w; heap := heap w; currentUser := currentUser w; env := env w;
     log := log w ++ evs |}.
Definition record (ev : Event) (w : World) : World := recordAll [ev] w.

Definition Observable (A : Type) : Type := Rx.Observable World A.

(** A method of a collaborator that returns an observable: called in
    the state [F] it can reach, it may act at once, and it hands back
    the subscription function of its observable. *)
Definition Method (F A : Type) : Type := F -> Rx.Observable F A * F.

(** The collaborators, which [application.ts] obtains from the injector. *)
Variable fetcher_searchForCourses : CoursesOption -> Method Env (list Course).
Variable fetcher_searchForPeople : PeopleOption -> Method Env (list Person).
Variable seeker_searchForCourses : CoursesOption -> Method Env (list Course).
Variable seeker_searchForPeople : PeopleOption -> Method Env (list Person).

(** [user.confirm()] reaches the user it is called on and the network. *)
Variable user_confirm : Method (User * Env) bool.

(** Release-dependent behaviour of Rx's [merge], see [Rx.merge]. *)
Variable mergeSubscribesAfterError : bool.

(** An observable of a collaborator, seen from the facade. *)
Definition onEnv {A} (o : Rx.Observable Env A) : Observable A :=
  fun w => let '(out, e') := o (env w) in (out, setEnv e' w).

(** An observable of the user at [l], seen from the facade. An instance
    is never freed, so the lookup of [l] succeeds. *)
Definition onUser {A} (l : loc) (o : Rx.Observable (User * Env) A) : Observable A :=
  fun w =>
    match heap w !! l with
    | Some u =>
        let '(out, (u', e')) := o (u, env w) in
        (out, setEnv e' (setHeap (<[l := u']> (heap w)) w))
    | None => (Rx.silent Rx.Open, w)
    end.

(** A call of a method of the Fetcher or of the Seeker. *)
Definition callOnEnv {A} (ev : Event) (m : Method Env A) (w : World) : Observable A * World :=
  let '(o, e') := m (env w) in
  (onEnv o, record ev (setEnv e' w)).

(** [user.confirm()] for the user at [l]. *)
Definition User_confirm (l : loc) (w : World) : Observable bool * World :=
  match heap w !! l with
  | Some u =>
      let '(o, (u', e')) := user_confirm (u, env w) in
      (onUser l o, record (UserConfirm l) (setEnv e' (setHeap (<[l := u']> (heap w)) w)))
  | None => (fun s => (Rx.silent Rx.Open, s), w)
  end.

(** [new User(id, password)]: a fresh instance. *)
Definition User_alloc (i p : string) (w : World) : loc * World :=
  let l := fresh (dom (heap w)) in
  (l, setHeap (<[l := User_new i p]> (heap w)) w).

(** The calls a node-style callback gets for what a subscription
    delivers: [callback(null, result)] for each result,
    [callback(error)] for an error. *)
Definition callbackCalls {A} (wrap : A -> Payload) (cb : nat)
    (out : Rx.Outcome A) : list Event :=
  map (fun a => Callback cb None (Some (wrap a))) (Rx.values out)
  ++ match Rx.terminal out with
     | Rx.Failed e => [Callback cb (Some e) None]
     | _ => []
     end.

(** Modelled from the spec: [caller.nodifyObservable(observable,
    callback)] of the missing [src/helpers/caller], the adapter of the
    deprecated callback parameter: without a callback it does nothing;
    with one it subscribes to the observable and hands what is
    delivered to the callback. What the callback itself goes on to do
    is the caller's. *)
Definition nodifyObservable {A} (wrap : A -> Payload)
    (observable : Observable A) (callback : option nat) (w : World) : World :=
  match callback with
  | None => w
  | Some cb =>
      let '(out, w') := observable w in
      recordAll (callbackCalls wrap cb out) w'
  end.

(** [private isUserExist(): boolean { return !!this.currentUser; }] *)
Definition isUserExist (w : World) : bool := truthy (currentUser w).

(** [one(id) { return cacher.users[id] || null; }] *)
Definition one (i : string) (w : World) : JsRef :=
  jsOr (jsGet (users w) i) null.

(** [register(id, password)]. The confirmation is taken to deliver while
    [register] subscribes to it; a confirmation that arrives later finds
    the state that other calls have made in between, which this
    definition does not follow. When the confirmation fails while it is
    being subscribed, the default error handler of Rx throws out of
    [register]: the state is as given here, and the instance is not
    returned. *)
Definition register (i p : string) (w : World) : loc * World :=
  let '(user, w1) := User_alloc i p w in
  let w2 := setUsers (<[i := user]> (users w1)) w1 in
  let w3 :=
    if negb (isUserExist w2) then
      let '(confirmation, w') := User_confirm user w2 in
      Rx.subscribe confirmation (fun _ st => setCurrentUser (ref user) st) w'
    else w2 in
  (user, w3).

(** The subscription function given to [Observable.create] by the two
    online searches. *)
Definition requireCurrentUser {A} (msg : string) : Observable A :=
  Rx.create (fun w =>
    (if negb (isUserExist w)
     then [Rx.OnError (exceptionFactory_new 401 msg)]
     else [], w)).

Definition coursesMessage : string :=
  "Application#searchForCourses must be called with a current user.".
Definition peopleMessage : string :=
  "Application#searchForPeople must be called with a current user.".

(** [searchForCourses(option, callback?)] *)
Definition searchForCourses (opt : CoursesOption) (callback : option nat)
    (w : World) : Observable (list Course) * World :=
  let '(fetched, w1) :=
    callOnEnv (FetcherSearchForCourses opt) (fetcher_searchForCourses opt) w in
  let observable :=
    Rx.merge mergeSubscribesAfterError (requireCurrentUser coursesMessage) fetched in
  (observable, nodifyObservable Courses observable callback w1).

(** [searchForCoursesInCache(option, callback?)] *)
Definition searchForCoursesInCache (opt : CoursesOption) (callback : option nat)
    (w : World) : Observable (list Course) * World :=
  let '(observable, w1) :=
    callOnEnv (SeekerSearchForCourses opt) (seeker_searchForCourses opt) w in
  (observable, nodifyObservable Courses observable callback w1).

(** [searchForCoursesWithCache(option, callback?)] *)
Definition searchForCoursesWithCache (opt : CoursesOption) (callback : option nat)
    (w : World) : Observable (list Course) * World :=
  let '(live, w1) := searchForCourses opt None w in
  let '(cached, w2) := searchForCoursesInCache opt None w1 in
  let observable := Rx.catch live cached in
  (observable, nodifyObservable Courses observable callback w2).

(** [searchForPeople(option, callback?)] *)
Definition searchForPeople (opt : PeopleOption) (callback : option nat)
    (w : World) : Observable (list Person) * World :=
  let '(fetched, w1) :=
    callOnEnv (FetcherSearchForPeople opt) (fetcher_searchForPeople opt) w in
  let observable :=
    Rx.merge mergeSubscribesAfterError (requireCurrentUser peopleMessage) fetched in
  (observable, nodifyObservable People observable callback w1).

(** [searchForPeopleInCache(option, callback?)] *)
Definition searchForPeopleInCache (opt : PeopleOption) (callback : option nat)
    (w : World) : Observable (list Person) * World :=
  let '(observable, w1) :=
    callOnEnv (SeekerSearchForPeople opt) (seeker_searchForPeople opt) w in
  (observable, nodifyObservable People observable callback w1).

(** [searchForPeopleWithCache(option, callback?)] *)
Definition searchForPeopleWithCache (opt : PeopleOption) (callback : option nat)
    (w : World) : Observable (list Person) * World :=
  let '(live, w1) := searchForPeople opt None w in
  let '(cached, w2) := searchForPeopleInCache opt None w1 in
  let observable := Rx.catch live cached in
  (observable, nodifyObservable People observable callback w2).

(** [verify(id, password, callback?)] *)
Definition verify (i p : string) (callback : option nat)
    (w : World) : Observable bool * World :=
  let '(user, w1) := User_alloc i p w in
  let '(observable, w2) := User_confirm user w1 in
  (observable, nodifyObservable Flag observable callback w2).

End Application.

(* ===================================================================== *)
(** ** Vocabulary of the statements about the facade *)

Section Frames.

Context {Course Person CoursesOption PeopleOption Env : Type}.
Abbreviation World := (@World Course Person CoursesOption PeopleOption Env).
Abbreviation Event := (@Event Course Person CoursesOption PeopleOption).

Definition isCallback (ev : Event) : bool :=
  match ev with Callback _ _ _ => true | _ => false end.

(** A subscription that leaves the registered users, the current user
    and the log of outgoing calls as they are. *)
Definition quiet {A} (o : Rx.Observable World A) : Prop :=
  forall w : World,
    users (snd (o w)) = users w
    /\ currentUser (snd (o w)) = currentUser w
    /\ log (snd (o w)) = log w.

(** [w'] is [w] with calls of callbacks added to the log, and nothing
    else changed in what the Application owns. *)
Definition onlyCallbacksSince (w w' : World) : Prop :=
  users w' = users w
  /\ currentUser w' = currentUser w
  /\ exists evs, log w' = (log w ++ evs)%list /\ forallb isCallback evs = true.

(** A quiet subscription that, of the instances, touches at most the
    one at [l], which it does not free. *)
Definition confinedTo {A} (l : loc) (o : Rx.Observable World A) : Prop :=
  quiet o
  /\ forall w : World,
       (forall l', l' <> l -> heap (snd (o w)) !! l' = heap w !! l')
       /\ (is_Some (heap w !! l) -> is_Some (heap (snd (o w)) !! l)).

(** The 401 error of an online search. *)
Definition unauthorized {A} (msg : string) : Rx.Outcome A :=
  Rx.silent (Rx.Failed (exceptionFactory_new AuthorizationRequired msg)).

(** A live attempt that fails: an error and no result before it. *)
Definition failsWith {A} (e : Exception) (out : Rx.Outcome A) : Prop :=
  out = Rx.silent (Rx.Failed e).

End Frames.

(* ===================================================================== *)
(** ** Seeker (src/helpers/seeker) *)

Section Seeker.

(** The kind of entity searched for, and the state that holds the
    cached ones. *)
Context {Entity Env : Type}.

(** Modelled from the spec: a search option, which lives in the missing
    [src/utils/interfaces]: free-form pairs of a key and a predicate. *)
Definition SearchOption : Type := list (string * (Entity -> bool)).

(** Modelled from the spec: an entity is a match when it passes every
    predicate of the option; the empty option lets every entity pass. *)
Definition satisfies (opt : SearchOption) (x : Entity) : bool :=
  forallb (fun filter => snd filter x) opt.

(** The cached entities of the kind, in insertion order. *)
Variable cached : Env -> list Entity.

(** Modelled from the spec: [seeker.searchForCourses(option)] and
    [seeker.searchForPeople(option)] of the missing
    [src/helpers/seeker]: the observable resolves with the cached
    entities that match the option, in the order of the cache; the
    search reads the cache and touches nothing. *)
Definition Seeker_search (opt : SearchOption) : Method Env (list Entity) :=
  fun e =>
    (fun e' => ({| Rx.values := [List.filter (satisfies opt) (cached e')];
                   Rx.terminal := Rx.Completed |}, e'),
     e).

End Seeker.
Arguments SearchOption Entity : clear implicits.

(* ===================================================================== *)
(** ** A sample installation *)

Module Sample.

Record Course : Type := { title : string; instructor : string }.
Record Person : Type := { name : string; department : string }.

(** The collaborators' state: whether the portal can be reached, and
    the cached courses and people. *)
Record Env : Type := {
  online : bool;
  cachedCourses : list Course;
  cachedPeople : list Person
}.

Definition NetworkFailure : Exception :=
  {| code := 503; message := "Network failure." |}.

(** What the portal holds. *)
Definition portalCourses : list Course :=
  [ {| title := "Compilers"; instructor := "Li" |};
    {| title := "Logic"; instructor := "Wang" |} ].
Definition portalPeople : list Person :=
  [ {| name := "Li"; department := "CS" |} ].

(** A Fetcher as the facade sees one: the observable it returns does the
    request when subscribed; a result is written through to the cache,
    an unreachable portal is an error. *)
Definition fetchCourses (opt : SearchOption Course) : Method Env (list Course) :=
  fun e =>
    (fun e' =>
       if online e'
       then let found := List.filter (satisfies opt) portalCourses in
            ({| Rx.values := [found]; Rx.terminal := Rx.Completed |},
             {| online := true; cachedCourses := cachedCourses e' ++ found;
                cachedPeople := cachedPeople e' |})
       else (Rx.silent (Rx.Failed NetworkFailure), e'),
     e).

Definition fetchPeople (opt : SearchOption Person) : Method Env (list Person) :=
  fun e =>
    (fun e' =>
       if online e'
       then let found := List.filter (satisfies opt) portalPeople in
            ({| Rx.values := [found]; Rx.terminal := Rx.Completed |},
             {| online := true; cachedCourses := cachedCourses e';
                cachedPeople := cachedPeople e' ++ found |})
       else (Rx.silent (Rx.Failed NetworkFailure), e'),
     e).

(** A login: the portal accepts the password ["811073"]. *)
Definition confirm : Method (User * Env) bool :=
  fun s =>
    (fun '(u, e') =>
       if online e'
       then let valid := String.eqb (password u) "811073" in
            ({| Rx.values := [valid]; Rx.terminal := Rx.Completed |},
             ({| id := id u; password := password u; isConfirmed := valid |}, e'))
       else (Rx.silent (Rx.Failed NetworkFailure), (u, e')),
     s).

Definition offline : Env :=
  {| online := false;
     cachedCourses := [ {| title := "Logic"; instructor := "Wang" |} ];
     cachedPeople := [] |}.

Definition reachable : Env :=
  {| online := true; cachedCourses := []; cachedPeople := [] |}.

Definition World : Type :=
  @World Course Person (SearchOption Course) (SearchOption Person) Env.

(** A freshly started application: nobody registered, no current user. *)
Definition start (e : Env) : World :=
  {| users := ∅; heap := ∅; currentUser := null; env := e; log := [] |}.

(** An application whose current user is the confirmed fixture user. *)
Definition signedIn (e : Env) : World :=
  {| users := {[ "2012019050020" := 1%positive ]};
     heap := {[ 1%positive := {| id := "2012019050020"; password := "811073";
                                 isConfirmed := true |} ]};
     currentUser := ref 1%positive;
     env := e;
     log := [] |}.

Definition byInstructor (who : string) : SearchOption Course :=
  [ ("instructor", fun c => String.eqb (instructor c) who) ].

Definition byName (who : string) : SearchOption Person :=
  [ ("name", fun p => String.eqb (name p) who) ].

End Sample.

(* ===================================================================== *)
(** ** The constructor, and clients of the facade *)

Section Lifecycle.

Context {Course Person CoursesOption PeopleOption Env : Type}.
Abbreviation LWorld := (@World Course Person CoursesOption PeopleOption Env).

(** [_.find(cacher.users, (user) => user.isConfirmed)]: the first
    instance of the dictionary that is confirmed, [undefined] when there
    is none. [keys] are the own keys of [cacher.users] in the order in
    which JavaScript enumerates them. *)
Fixpoint findConfirmed (w : LWorld) (keys : list string) : JsRef :=
  match keys with
  | [] => undefined
  | k :: rest =>
      match users w !! k with
      | Some l =>
          match heap w !! l with
          | Some u => if isConfirmed u then ref l else findConfirmed w rest
          | None => findConfirmed w rest
          end
      | None => findConfirmed w rest
      end
  end.

(** [constructor () { this.currentUser = _.find(cacher.users, (user) =>
    user.isConfirmed) || null; }] *)
Definition Application_constructor (keys : list string) (w : LWorld) : LWorld :=
  setCurrentUser (jsOr (findConfirmed w keys) null) w.

(** [keys] enumerates the dictionary: they are its keys. *)
Definition enumerates (keys : list string) (w : LWorld) : Prop :=
  forall k, k ∈ keys <-> is_Some (users w !! k).

(** The instance at [l] is registered under [k] and is confirmed. *)
Definition confirmedAt (w : LWorld) (k : string) (l : loc) : Prop :=
  users w !! k = Some l
  /\ exists u, heap w !! l = Some u /\ isConfirmed u = true.

(** [w'] has the registered users and the current user of [w]. *)
Definition keeps (w w' : LWorld) : Prop :=
  users w' = users w /\ currentUser w' = currentUser w.

(** What is fetched, as an online search with a current user passes it
    on: the values, an error as an error, and no completion. *)
Definition relayed {A} (fetched : Rx.Outcome A) : Rx.Outcome A :=
  {| Rx.values := Rx.values fetched;
     Rx.terminal := match Rx.terminal fetched with
                    | Rx.Failed e => Rx.Failed e
                    | _ => Rx.Open
                    end |}.

(** What [first], which failed, delivered, and then all of [second]. *)
Definition continued {A} (first second : Rx.Outcome A) : Rx.Outcome A :=
  {| Rx.values := Rx.values first ++ Rx.values second;
     Rx.terminal := Rx.terminal second |}.

(** *** A client of the facade *)

Variable fetcher_searchForCourses : CoursesOption -> Method Env (list Course).
Variable fetcher_searchForPeople : PeopleOption -> Method Env (list Person).
Variable seeker_searchForCourses : CoursesOption -> Method Env (list Course).
Variable seeker_searchForPeople : PeopleOption -> Method Env (list Person).
Variable user_confirm : Method (User * Env) bool.
Variable mergeSubscribesAfterError : bool.

(** An observable a client got from the facade and may subscribe to. *)
Inductive Held : Type :=
| HeldCourses (o : Rx.Observable LWorld (list Course))
| HeldPeople (o : Rx.Observable LWorld (list Person))
| HeldFlag (o : Rx.Observable LWorld bool).

(** What a client does, one thing after the other: it calls a method of
    the facade, or subscribes to an observable it got from an earlier
    call (the [n]-th it got, from 0). *)
Inductive Step : Type :=
| DoOne (i : string)
| DoRegister (i p : string)
| DoVerify (i p : string) (callback : option nat)
| DoSearchForCourses (opt : CoursesOption) (callback : option nat)
| DoSearchForCoursesInCache (opt : CoursesOption) (callback : option nat)
| DoSearchForCoursesWithCache (opt : CoursesOption) (callback : option nat)
| DoSearchForPeople (opt : PeopleOption) (callback : option nat)
| DoSearchForPeopleInCache (opt : PeopleOption) (callback : option nat)
| DoSearchForPeopleWithCache (opt : PeopleOption) (callback : option nat)
| DoSubscribe (n : nat).

Definition isRegistration (s : Step) : bool :=
  match s with DoRegister _ _ => true | _ => false end.

(** The application and the observables the client holds. *)
Record Client : Type := { world : LWorld; held : list Held }.

Definition holding (h : Held) (r : LWorld) (c : Client) : Client :=
  {| world := r; held := held c ++ [h] |}.

Definition subscribeHeld (h : Held) (w : LWorld) : LWorld :=
  match h with
  | HeldCourses o => snd (o w)
  | HeldPeople o => snd (o w)
  | HeldFlag o => snd (o w)
  end.

Definition step (s : Step) (c : Client) : Client :=
  let w := world c in
  match s with
  | DoOne _ => c
  | DoRegister i p =>
      {| world := snd (register user_confirm i p w); held := held c |}
  | DoVerify i p callback =>
      let r := verify user_confirm i p callback w in
      holding (HeldFlag (fst r)) (snd r) c
  | DoSearchForCourses opt callback =>
      let r := searchForCourses fetcher_searchForCourses mergeSubscribesAfterError
                 opt callback w in
      holding (HeldCourses (fst r)) (snd r) c
  | DoSearchForCoursesInCache opt callback =>
      let r := searchForCoursesInCache seeker_searchForCourses opt callback w in
      holding (HeldCourses (fst r)) (snd r) c
  | DoSearchForCoursesWithCache opt callback =>
      let r := searchForCoursesWithCache fetcher_searchForCourses
                 seeker_searchForCourses mergeSubscribesAfterError opt callback w in
      holding (HeldCourses (fst r)) (snd r) c
  | DoSearchForPeople opt callback =>
      let r := searchForPeople fetcher_searchForPeople mergeSubscribesAfterError
                 opt callback w in
      holding (HeldPeople (fst r)) (snd r) c
  | DoSearchForPeopleInCache opt callback =>
      let r := searchForPeopleInCache seeker_searchForPeople opt callback w in
      holding (HeldPeople (fst r)) (snd r) c
  | DoSearchForPeopleWithCache opt callback =>
      let r := searchForPeopleWithCache fetcher_searchForPeople
                 seeker_searchForPeople mergeSubscribesAfterError opt callback w in
      holding (HeldPeople (fst r)) (snd r) c
  | DoSubscribe n =>
      match held c !! n with
      | Some h => {| world := subscribeHeld h w; held := held c |}
      | None => c
      end
  end.

Definition run (steps : list Step) (c : Client) : Client :=
  fold_left (fun st s => step s st) steps c.

Definition quietHeld (h : Held) : Prop :=
  match h with
  | HeldCourses o => quiet o
  | HeldPeople o => quiet o
  | HeldFlag o => quiet o
  end.

(** A client whose observables leave the users and the current user
    alone when subscribed, as those of the facade do. *)
Definition sound (c : Client) : Prop := Forall quietHeld (held c).

End Lifecycle.

(** The fixture user registers twice, then searches. *)
Module Scenario.
Import Sample.

Definition session : list (@Step (SearchOption Course) (SearchOption Person)) :=
  [ DoRegister "2012019050020" "811073";
    DoSearchForCoursesWithCache (byInstructor "Li") (Some 1%nat);
    DoVerify "2013019050020" "000000" None;
    DoSubscribe 1;
    DoRegister "2012019050020" "changed";
    DoSearchForPeople (byName "Li") None;
    DoSubscribe 2 ].

(** The same without the registrations: a valid login is verified, and
    everything returned is subscribed. *)
Definition searches : list (@Step (SearchOption Course) (SearchOption Person)) :=
  [ DoVerify "2012019050020" "811073" (Some 2%nat);
    DoSubscribe 0;
    DoSearchForCoursesWithCache (byInstructor "Li") (Some 1%nat);
    DoSearchForPeople (byName "Li") None;
    DoSubscribe 1;
    DoSubscribe 2;
    DoOne "2012019050020" ].

(** A client that holds no observable yet. *)
Definition client (w : Sample.World) : Client := {| world := w; held := [] |}.

Definition run :=
  run fetchCourses fetchPeople (Seeker_search cachedCourses)
    (Seeker_search cachedPeople) confirm true.

(** A cache with an unconfirmed and a confirmed user. *)
Definition twoUsers : Sample.World :=
  {| users := {[ "2011019050001" := 1%positive; "2012019050020" := 2%positive ]};
     heap := {[ 1%positive := User_new "2011019050001" "secret";
                2%positive := {| id := "2012019050020"; password := "811073";
                                 isConfirmed := true |} ]};
     currentUser := null;
     env := reachable;
     log := [] |}.

End Scenario.

(* ===================================================================== *)
(** * Properties of the Encoder *)

Module EncoderFacts.
Import Encoder.

(** ** getSemester *)

Lemma resolveYear_absolute (year grade : Z) :
  yearThreshold <= year -> resolveYear year grade = year.
Proof.
  intros Hy. unfold resolveYear.
  destruct (Z.leb_spec yearThreshold year); [reflexivity | lia].
Qed.

Lemma resolveYear_relative (offset grade : Z) :
  offset < yearThreshold -> resolveYear offset grade = grade + (offset - 1).
Proof.
  intros Hy. unfold resolveYear.
  destruct (Z.leb_spec yearThreshold offset); [lia | reflexivity].
Qed.

(** C3. A grade-relative offset and the absolute year it stands for
    (grade + offset - 1) give the same semester id, for every user and
    semester number, whenever the offset is below the threshold of
    absolute years and the year it stands for is a calendar year; with
    the sample constants, a user of grade 2012 gets 13 both for
    (2012, 1) and for (1, 1). *)
Theorem getSemester_relative_absolute :
  (forall (U : Type) (HU : UserLike U) (cfg : Config) (user : U)
          (offset semesterNumber : Z),
      offset < yearThreshold ->
      yearThreshold <= getGrade user + offset - 1 ->
      getSemester cfg offset semesterNumber user
      = getSemester cfg (getGrade user + offset - 1) semesterNumber user)
  /\ getSemester sample 2012 1 {| gradeOnly := 2012 |} = 13
  /\ getSemester sample 1 1 {| gradeOnly := 2012 |} = 13.
Proof.
  split; [| split; reflexivity].
  intros U HU cfg user offset semesterNumber Hrel Habs.
  unfold getSemester.
  rewrite (resolveYear_relative _ _ Hrel), (resolveYear_absolute _ _ Habs).
  f_equal. lia.
Qed.

Lemma getSemester_relative_absolute_witness :
  getSemester sample 3 2 {| gradeOnly := 2012 |}
  = getSemester sample (2012 + 3 - 1) 2 {| gradeOnly := 2012 |}.
Proof.
  refine (proj1 getSemester_relative_absolute GradeOnly _ sample
                {| gradeOnly := 2012 |} 3 2 _ _).
  - reflexivity.
  - discriminate.
Defined.

End EncoderFacts.

Module WeekdayFacts.
Import Encoder.

Lemma indexFrom_Some (labels : list string) (from i : Z) (label : string) :
  indexFrom from label labels = Some i ->
  exists n : nat, labels !! n = Some label /\ i = from + Z.of_nat n.
Proof.
  revert from. induction labels as [| l rest IH]; intros from Hi; simpl in Hi.
  - discriminate.
  - destruct (String.eqb_spec label l) as [-> | Hne].
    + injection Hi as <-. exists 0%nat. split; [reflexivity | lia].
    + destruct (IH _ Hi) as (n & Hn & ->).
      exists (S n). split; [exact Hn | lia].
Qed.

Lemma indexFrom_None (labels : list string) (from : Z) (label : string) :
  indexFrom from label labels = None <-> ~ In label labels.
Proof.
  revert from. induction labels as [| l rest IH]; intros from; simpl.
  - tauto.
  - destruct (String.eqb_spec label l) as [-> | Hne].
    + split; [discriminate | intros H; exfalso; apply H; now left].
    + rewrite IH. split; [intros H [E | E]; [congruence | tauto] | tauto].
Qed.

(** C5. [parseDayofWeek] maps the seven labels 星期一 .. 星期日, in this
    order, to 1 .. 7; an index it returns is between 1 and 7 and is the
    position of the label in the vocabulary, so that two labels with
    the same index are the same label; every string outside of the
    vocabulary is answered with [UnknownLabel]. *)
Theorem parseDayofWeek_total_injective :
  length weekdayLabels = 7%nat
  /\ map parseDayofWeek weekdayLabels = map Ok [1; 2; 3; 4; 5; 6; 7]
  /\ (forall label : string, In label weekdayLabels ->
        exists i, parseDayofWeek label = Ok i /\ 1 <= i <= 7)
  /\ (forall (label : string) (i : Z), parseDayofWeek label = Ok i ->
        1 <= i <= 7 /\ weekdayLabels !! Z.to_nat (i - 1) = Some label)
  /\ (forall (l1 l2 : string) (i : Z),
        parseDayofWeek l1 = Ok i -> parseDayofWeek l2 = Ok i -> l1 = l2)
  /\ (forall label : string, ~ In label weekdayLabels ->
        parseDayofWeek label = Err UnknownLabel).
Proof.
  assert (Hpos : forall label i, parseDayofWeek label = Ok i ->
                   1 <= i <= 7 /\ weekdayLabels !! Z.to_nat (i - 1) = Some label).
  { intros label i Hp. unfold parseDayofWeek in Hp.
    destruct (indexFrom 1 label weekdayLabels) as [j |] eqn:Hj; [| discriminate].
    injection Hp as ->. apply indexFrom_Some in Hj as (n & Hn & ->).
    pose proof (lookup_lt_Some _ _ _ Hn) as Hlt. simpl in Hlt.
    replace (Z.to_nat (1 + Z.of_nat n - 1)) with n by lia.
    split; [lia | exact Hn]. }
  split; [reflexivity |]. split; [reflexivity |].
  split; [| split; [exact Hpos | split]].
  - intros label Hin. unfold parseDayofWeek.
    destruct (indexFrom 1 label weekdayLabels) as [j |] eqn:Hj.
    + exists j. split; [reflexivity |].
      apply (Hpos label j). unfold parseDayofWeek. now rewrite Hj.
    + apply indexFrom_None in Hj. contradiction.
  - intros l1 l2 i H1 H2.
    apply Hpos in H1 as [_ H1]. apply Hpos in H2 as [_ H2]. congruence.
  - intros label Hout. unfold parseDayofWeek.
    apply (indexFrom_None weekdayLabels 1) in Hout. now rewrite Hout.
Qed.

Lemma parseDayofWeek_total_injective_witness :
  (exists i, parseDayofWeek "星期三" = Ok i /\ 1 <= i <= 7)
  /\ parseDayofWeek "Monday" = Err UnknownLabel
  /\ parseDayofWeek "" = Err UnknownLabel.
Proof.
  destruct parseDayofWeek_total_injective as (_ & _ & Hin & _ & _ & Hout).
  split; [| split].
  - apply Hin. simpl. tauto.
  - apply Hout. simpl. intros H. decompose [or] H; discriminate || assumption.
  - apply Hout. simpl. intros H. decompose [or] H; discriminate || assumption.
Defined.

End WeekdayFacts.

Module SemesterStringFacts.
Import Encoder.

Lemma splitAtChar_Some (sep : ascii) (s before after : string) :
  splitAtChar sep s = Some (before, after) ->
  s = (before ++ String sep after)%string /\ lacks sep before.
Proof.
  revert before. induction s as [| c rest IH]; intros before Hs; simpl in Hs.
  - discriminate.
  - destruct (Ascii.eqb_spec c sep) as [-> | Hne].
    + injection Hs as <- <-. simpl. auto.
    + destruct (splitAtChar sep rest) as [[b a] |]; [| discriminate].
      injection Hs as <- <-.
      destruct (IH b eq_refl) as [-> Hl]. simpl. auto.
Qed.

Lemma splitAtChar_app (sep : ascii) (before after : string) :
  lacks sep before ->
  splitAtChar sep (before ++ String sep after) = Some (before, after).
Proof.
  induction before as [| c rest IH]; simpl.
  - intros _. now rewrite Ascii.eqb_refl.
  - intros [Hne Hl]. destruct (Ascii.eqb_spec c sep); [contradiction |].
    now rewrite (IH Hl).
Qed.

Lemma isDigit_not (c sep : ascii) :
  isDigit sep = false -> isDigit c = true -> c <> sep.
Proof. intros Hs Hc ->. congruence. Qed.

Lemma allDigits_lacks (sep : ascii) (s : string) :
  isDigit sep = false -> allDigits s = true -> lacks sep s.
Proof.
  intros Hs. induction s as [| c rest IH]; simpl; [auto |].
  intros [Hc Hr]%andb_prop. split; [now apply (isDigit_not c sep) | auto].
Qed.

Lemma parseNumber_Some (s : string) (n : Z) :
  parseNumber s = Some n ->
  s <> EmptyString /\ allDigits s = true /\ n = digitsValue 0 s.
Proof.
  unfold parseNumber. destruct s as [| c rest]; [discriminate |].
  destruct (allDigits (String c rest)); [| discriminate].
  intros [= <-]. repeat split. discriminate.
Qed.

Lemma digitValue_range (c : ascii) : isDigit c = true -> 0 <= digitValue c <= 9.
Proof.
  unfold isDigit, digitValue.
  intros [H1 H2]%andb_prop.
  apply Nat.leb_le in H1, H2. lia.
Qed.

Lemma digitsValue_nonneg (s : string) (acc : Z) :
  0 <= acc -> allDigits s = true -> 0 <= digitsValue acc s.
Proof.
  revert acc. induction s as [| c rest IH]; simpl; intros acc Hacc; [auto |].
  intros [Hc Hr]%andb_prop. apply IH; [| exact Hr].
  pose proof (digitValue_range c Hc). lia.
Qed.

Lemma parseSemester_Ok (cfg : Config) (text : string) (triple : Z * Z * Z) :
  parseSemester cfg text = Ok triple <-> denotes cfg text triple.
Proof.
  split.
  - unfold parseSemester. intros Hp.
    destruct (splitAtChar hyphen text) as [[startText rest] |] eqn:H1; [| discriminate].
    destruct (splitAtChar blank rest) as [[endText numberText] |] eqn:H2; [| discriminate].
    destruct (parseNumber startText) as [a |] eqn:Ha; [| discriminate].
    destruct (parseNumber endText) as [b |] eqn:Hb; [| discriminate].
    destruct (parseNumber numberText) as [c |] eqn:Hc; [| discriminate].
    destruct ((b =? a + 1) && (1 <=? c) && (c <=? semesterCardinality cfg)) eqn:Hchk;
      [| discriminate].
    injection Hp as <-.
    apply andb_prop in Hchk as [[Hadj Hlo]%andb_prop Hhi].
    apply Z.eqb_eq in Hadj. apply Z.leb_le in Hlo, Hhi.
    apply splitAtChar_Some in H1 as [-> _]. apply splitAtChar_Some in H2 as [-> _].
    exists startText, endText, numberText. simpl. unfold semesterText. auto 10.
  - intros (startText & endText & numberText & -> & Ha & Hb & Hc & Hadj & Hlo & Hhi).
    destruct triple as [[a b] c]. simpl in *.
    unfold parseSemester, semesterText.
    rewrite splitAtChar_app
      by (apply allDigits_lacks; [reflexivity | apply (parseNumber_Some _ _ Ha)]).
    rewrite splitAtChar_app
      by (apply allDigits_lacks; [reflexivity | apply (parseNumber_Some _ _ Hb)]).
    rewrite Ha, Hb, Hc.
    apply Z.eqb_eq in Hadj. apply Z.leb_le in Hlo, Hhi.
    now rewrite Hadj, Hlo, Hhi.
Qed.

Lemma parseSemester_Err (cfg : Config) (text : string) (e : Error) :
  parseSemester cfg text = Err e -> e = MalformedSemesterString.
Proof.
  unfold parseSemester. intros Hp.
  repeat match type of Hp with
         | context [match ?x with _ => _ end] => destruct x
         end; congruence.
Qed.

(** C6. [parseSemester] maps "2013-2014 2" to (2013, 2014, 2). It
    succeeds exactly on the texts of the shape
    [<startYear>-<endYear> <semesterNumber>], three non-empty runs of
    decimal digits with [endYear = startYear + 1] and the semester
    number within 1 .. cardinality, and then returns the three numbers;
    on every other text it fails with [MalformedSemesterString] and
    returns nothing: so for "abc", for the non-adjacent years of
    "2013-2015 2" and for the semester numbers 0 and 3 with two
    semesters a year. *)
Theorem parseSemester_all_or_nothing :
  parseSemester sample "2013-2014 2" = Ok (2013, 2014, 2)
  /\ parseSemester sample "abc" = Err MalformedSemesterString
  /\ parseSemester sample "2013-2015 2" = Err MalformedSemesterString
  /\ parseSemester sample "2013-2014 3" = Err MalformedSemesterString
  /\ parseSemester sample "2013-2014 0" = Err MalformedSemesterString
  /\ (forall (cfg : Config) (text : string) (triple : Z * Z * Z),
        parseSemester cfg text = Ok triple <-> denotes cfg text triple)
  /\ (forall (cfg : Config) (text : string),
        (exists triple, parseSemester cfg text = Ok triple /\ denotes cfg text triple)
        \/ (parseSemester cfg text = Err MalformedSemesterString
            /\ forall triple, ~ denotes cfg text triple)).
Proof.
  do 5 (split; [reflexivity |]).
  split; [exact parseSemester_Ok |].
  intros cfg text.
  destruct (parseSemester cfg text) as [triple | e] eqn:Hp.
  - left. exists triple. split; [reflexivity | now apply parseSemester_Ok].
  - right. split; [f_equal; exact (parseSemester_Err _ _ _ Hp) |].
    intros triple Hd. apply parseSemester_Ok in Hd. congruence.
Qed.

Lemma parseSemester_all_or_nothing_witness :
  parseSemester sampleClamped "1999-2000 1" = Ok (1999, 2000, 1).
Proof.
  apply (proj1 (proj2 (proj2 (proj2 (proj2 (proj2 parseSemester_all_or_nothing)))))).
  exists "1999", "2000", "1". repeat split; discriminate.
Defined.

End SemesterStringFacts.

(* ===================================================================== *)
(** * Properties of the Application facade *)

Section ApplicationFacts.

Context {Course Person CoursesOption PeopleOption Env : Type}.
Local Open Scope list_scope.
Abbreviation World' := (@World Course Person CoursesOption PeopleOption Env).
Abbreviation Event' := (@Event Course Person CoursesOption PeopleOption).
Abbreviation Obs' A := (Rx.Observable World' A).
Implicit Types (w ws : World') (evs : list Event').

(** ** Setters and the log *)

Lemma setEnv_env w : setEnv (env w) w = w.
Proof. now destruct w. Qed.

Lemma fetcherInvocations_app evs1 evs2 :
  fetcherInvocations (evs1 ++ evs2)
  = (fetcherInvocations evs1 + fetcherInvocations evs2)%nat.
Proof. unfold fetcherInvocations. now rewrite List.filter_app, length_app. Qed.

Lemma seekerInvocations_app evs1 evs2 :
  seekerInvocations (evs1 ++ evs2)
  = (seekerInvocations evs1 + seekerInvocations evs2)%nat.
Proof. unfold seekerInvocations. now rewrite List.filter_app, length_app. Qed.

Lemma callbacks_no_fetcher evs :
  forallb isCallback evs = true -> fetcherInvocations evs = 0%nat.
Proof.
  induction evs as [| ev evs IH]; [reflexivity |]. simpl.
  intros [Hev Hevs]%andb_prop. destruct ev; try discriminate. now apply IH.
Qed.

Lemma callbacks_no_seeker evs :
  forallb isCallback evs = true -> seekerInvocations evs = 0%nat.
Proof.
  induction evs as [| ev evs IH]; [reflexivity |]. simpl.
  intros [Hev Hevs]%andb_prop. destruct ev; try discriminate. now apply IH.
Qed.

Lemma callbackCalls_callbacks {A} (wrap : A -> Payload) cb (out : Rx.Outcome A) :
  forallb isCallback (callbackCalls (Course := Course) (Person := Person)
                        (CoursesOption := CoursesOption)
                        (PeopleOption := PeopleOption) wrap cb out) = true.
Proof.
  unfold callbackCalls. rewrite forallb_app. apply andb_true_intro. split.
  - induction (Rx.values out); simpl; auto.
  - destruct (Rx.terminal out); reflexivity.
Qed.

Lemma onlyCallbacksSince_refl w : onlyCallbacksSince w w.
Proof.
  repeat split. exists []. split; [now rewrite app_nil_r | reflexivity].
Qed.

(** ** Quiet subscriptions *)

Lemma quiet_onEnv {A} (o : Rx.Observable Env A) : quiet (onEnv o : Obs' A).
Proof. intros w. unfold onEnv. destruct (o (env w)). simpl. auto. Qed.

Lemma quiet_onUser {A} l (o : Rx.Observable (User * Env) A) :
  quiet (onUser l o : Obs' A).
Proof.
  intros w. unfold onUser. destruct (heap w !! l); [| simpl; auto].
  destruct (o (u, env w)) as [out [u' e']]. simpl. auto.
Qed.

Lemma quiet_requireCurrentUser {A} msg :
  quiet (requireCurrentUser msg : Obs' A).
Proof. intros w. unfold requireCurrentUser, Rx.create. simpl. auto. Qed.

Lemma quiet_merge {A} flag (a b : Obs' A) :
  quiet a -> quiet b -> quiet (Rx.merge flag a b).
Proof.
  intros Ha Hb w. unfold Rx.merge.
  specialize (Ha w). destruct (a w) as [o1 s1]. simpl in Ha.
  pose proof (Hb s1) as Hb1. destruct (b s1) as [o2 s2]. simpl in Hb1.
  destruct (Rx.terminal o1); simpl; try (intuition congruence).
  destruct flag; simpl; intuition congruence.
Qed.

Lemma quiet_catch {A} (a b : Obs' A) :
  quiet a -> quiet b -> quiet (Rx.catch a b).
Proof.
  intros Ha Hb w. unfold Rx.catch.
  specialize (Ha w). destruct (a w) as [o1 s1]. simpl in Ha.
  pose proof (Hb s1) as Hb1. destruct (b s1) as [o2 s2]. simpl in Hb1.
  destruct (Rx.terminal o1); simpl; intuition congruence.
Qed.

Lemma nodifyObservable_quiet {A} (wrap : A -> Payload) (o : Obs' A) callback w :
  quiet o -> onlyCallbacksSince w (nodifyObservable wrap o callback w).
Proof.
  intros Ho. destruct callback as [cb |]; simpl; [| apply onlyCallbacksSince_refl].
  specialize (Ho w). destruct (o w) as [out w']. simpl in *.
  destruct Ho as (Hu & Hc & Hl). repeat split; auto.
  exists (callbackCalls wrap cb out). rewrite <- Hl.
  split; [reflexivity | apply callbackCalls_callbacks].
Qed.

(** ** The guard of the online searches *)

Lemma requireCurrentUser_absent {A} msg w :
  isUserExist w = false ->
  requireCurrentUser (A := A) msg w = (unauthorized msg, w).
Proof. intros Hw. unfold requireCurrentUser, Rx.create. now rewrite Hw. Qed.

Lemma requireCurrentUser_present {A} msg w :
  isUserExist w = true ->
  requireCurrentUser (A := A) msg w = (Rx.silent Rx.Open, w).
Proof. intros Hw. unfold requireCurrentUser, Rx.create. now rewrite Hw. Qed.

Lemma merge_guard_absent {A} flag msg (o : Obs' A) w :
  isUserExist w = false ->
  fst (Rx.merge flag (requireCurrentUser msg) o w) = unauthorized msg.
Proof.
  intros Hw. unfold Rx.merge. rewrite (requireCurrentUser_absent _ _ Hw).
  reflexivity.
Qed.

Lemma merge_guard_present {A} flag msg (o : Obs' A) w :
  isUserExist w = true ->
  Rx.merge flag (requireCurrentUser msg) o w
  = ({| Rx.values := Rx.values (fst (o w));
        Rx.terminal := match Rx.terminal (fst (o w)) with
                       | Rx.Failed e => Rx.Failed e
                       | _ => Rx.Open
                       end |}, snd (o w)).
Proof.
  intros Hw. unfold Rx.merge. rewrite (requireCurrentUser_present _ _ Hw).
  simpl. destruct (o w) as [o2 s2]. simpl. destruct (Rx.terminal o2); reflexivity.
Qed.

Lemma merge_guard_absent_state {A} flag msg (o : Obs' A) w :
  isUserExist w = false ->
  Rx.merge flag (requireCurrentUser msg) o w
  = (unauthorized msg, if flag then snd (o w) else w).
Proof.
  intros Hw. unfold Rx.merge. rewrite (requireCurrentUser_absent _ _ Hw).
  reflexivity.
Qed.

(** ** The collaborators *)

Variable fetcher_searchForCourses : CoursesOption -> Method Env (list Course).
Variable fetcher_searchForPeople : PeopleOption -> Method Env (list Person).
Variable seeker_searchForCourses : CoursesOption -> Method Env (list Course).
Variable seeker_searchForPeople : PeopleOption -> Method Env (list Person).
Variable user_confirm : Method (User * Env) bool.

(** ** Online search *)

Lemma callOnEnv_spec {A} (ev : Event') (m : Method Env A) w :
  callOnEnv ev m w
  = (onEnv (fst (m (env w))), record ev (setEnv (snd (m (env w))) w)).
Proof. unfold callOnEnv. now destruct (m (env w)). Qed.

Lemma searchForCourses_spec flag opt callback w0 :
  searchForCourses fetcher_searchForCourses flag opt callback w0
  = let fetched := onEnv (fst (fetcher_searchForCourses opt (env w0))) in
    let w1 := record (FetcherSearchForCourses opt)
                (setEnv (snd (fetcher_searchForCourses opt (env w0))) w0) in
    let observable := Rx.merge flag (requireCurrentUser coursesMessage) fetched in
    (observable, nodifyObservable Courses observable callback w1).
Proof. unfold searchForCourses. now rewrite callOnEnv_spec. Qed.

Lemma searchForPeople_spec flag opt callback w0 :
  searchForPeople fetcher_searchForPeople flag opt callback w0
  = let fetched := onEnv (fst (fetcher_searchForPeople opt (env w0))) in
    let w1 := record (FetcherSearchForPeople opt)
                (setEnv (snd (fetcher_searchForPeople opt (env w0))) w0) in
    let observable := Rx.merge flag (requireCurrentUser peopleMessage) fetched in
    (observable, nodifyObservable People observable callback w1).
Proof. unfold searchForPeople. now rewrite callOnEnv_spec. Qed.

Lemma quiet_live {A} flag msg (o : Rx.Observable Env A) :
  quiet (Rx.merge flag (requireCurrentUser msg) (onEnv o) : Obs' A).
Proof. apply quiet_merge; [apply quiet_requireCurrentUser | apply quiet_onEnv]. Qed.

(** What an online search does when there is no current user, for a
    source [o] of fetched results and the payload [wrap] of its kind. *)
Lemma online_search_absent {A} (wrap : A -> Payload) flag msg
    (o : Rx.Observable Env A) (ev : Event') (e' : Env) w0 :
  isUserExist w0 = false ->
  let observable : Obs' A := Rx.merge flag (requireCurrentUser msg) (onEnv o) in
  let w1 := record ev (setEnv e' w0) in
  (forall cb,
      log (nodifyObservable wrap observable (Some cb) w1)
      = log w0 ++ [ev; Callback cb (Some (exceptionFactory_new AuthorizationRequired msg)) None])
  /\ log (nodifyObservable wrap observable None w1) = log w0 ++ [ev]
  /\ (forall w, isUserExist w = false -> fst (observable w) = unauthorized msg).
Proof.
  intros Hw0 observable w1. split; [| split].
  - intros cb. unfold nodifyObservable, observable.
    rewrite merge_guard_absent_state by exact Hw0.
    assert (Hlog : log (if flag then snd (onEnv o w1) else w1) = log w1).
    { destruct flag; [apply quiet_onEnv | reflexivity]. }
    simpl. rewrite Hlog. simpl. now rewrite <- app_assoc.
  - reflexivity.
  - intros w Hw. unfold observable. now rewrite merge_guard_absent_state.
Qed.

(** C1, as the code has it. A privileged search called with no current
    user hands the 401 error to the callback, and whoever subscribes to
    the returned observable while there is still no current user is
    told that error and nothing else. The search method of the Fetcher
    is nevertheless invoked, once, when the search is called: its
    observable is the argument of [merge]. *)
Theorem privileged_search_without_user :
  forall (flag : bool) (optC : CoursesOption) (optP : PeopleOption) (w0 : World'),
    isUserExist w0 = false ->
    (forall cb,
        log (snd (searchForCourses fetcher_searchForCourses flag optC (Some cb) w0))
        = log w0 ++ [FetcherSearchForCourses optC;
                     Callback cb (Some (exceptionFactory_new AuthorizationRequired
                                          coursesMessage)) None])
    /\ (forall cb,
        log (snd (searchForPeople fetcher_searchForPeople flag optP (Some cb) w0))
        = log w0 ++ [FetcherSearchForPeople optP;
                     Callback cb (Some (exceptionFactory_new AuthorizationRequired
                                          peopleMessage)) None])
    /\ log (snd (searchForCourses fetcher_searchForCourses flag optC None w0))
       = log w0 ++ [FetcherSearchForCourses optC]
    /\ log (snd (searchForPeople fetcher_searchForPeople flag optP None w0))
       = log w0 ++ [FetcherSearchForPeople optP]
    /\ (forall callback w, isUserExist w = false ->
        fst (fst (searchForCourses fetcher_searchForCourses flag optC callback w0) w)
        = unauthorized coursesMessage
        /\ fst (fst (searchForPeople fetcher_searchForPeople flag optP callback w0) w)
           = unauthorized peopleMessage)
    /\ (forall callback,
        fetcherInvocations
          (log (snd (searchForCourses fetcher_searchForCourses flag optC callback w0)))
        = S (fetcherInvocations (log w0))
        /\ fetcherInvocations
             (log (snd (searchForPeople fetcher_searchForPeople flag optP callback w0)))
           = S (fetcherInvocations (log w0))).
Proof.
  intros flag optC optP w0 Hw0.
  pose proof (online_search_absent Courses flag coursesMessage
                (fst (fetcher_searchForCourses optC (env w0)))
                (FetcherSearchForCourses optC)
                (snd (fetcher_searchForCourses optC (env w0))) w0 Hw0) as (HC1 & HC2 & HC3).
  pose proof (online_search_absent People flag peopleMessage
                (fst (fetcher_searchForPeople optP (env w0)))
                (FetcherSearchForPeople optP)
                (snd (fetcher_searchForPeople optP (env w0))) w0 Hw0) as (HP1 & HP2 & HP3).
  repeat split.
  - intros cb. rewrite searchForCourses_spec. apply HC1.
  - intros cb. rewrite searchForPeople_spec. apply HP1.
  - rewrite searchForCourses_spec. apply HC2.
  - rewrite searchForPeople_spec. apply HP2.
  - rewrite searchForCourses_spec. now apply HC3.
  - rewrite searchForPeople_spec. now apply HP3.
  - rewrite searchForCourses_spec. simpl. destruct callback as [cb |].
    + rewrite HC1, fetcherInvocations_app. unfold fetcherInvocations. simpl. lia.
    + rewrite HC2, fetcherInvocations_app. unfold fetcherInvocations. simpl. lia.
  - rewrite searchForPeople_spec. simpl. destruct callback as [cb |].
    + rewrite HP1, fetcherInvocations_app. unfold fetcherInvocations. simpl. lia.
    + rewrite HP2, fetcherInvocations_app. unfold fetcherInvocations. simpl. lia.
Qed.

(** ** Offline search and the combined search *)

Lemma searchForCoursesInCache_spec opt callback w0 :
  searchForCoursesInCache seeker_searchForCourses opt callback w0
  = let observable := onEnv (fst (seeker_searchForCourses opt (env w0))) in
    let w1 := record (SeekerSearchForCourses opt)
                (setEnv (snd (seeker_searchForCourses opt (env w0))) w0) in
    (observable, nodifyObservable Courses observable callback w1).
Proof. unfold searchForCoursesInCache. now rewrite callOnEnv_spec. Qed.

Lemma searchForPeopleInCache_spec opt callback w0 :
  searchForPeopleInCache seeker_searchForPeople opt callback w0
  = let observable := onEnv (fst (seeker_searchForPeople opt (env w0))) in
    let w1 := record (SeekerSearchForPeople opt)
                (setEnv (snd (seeker_searchForPeople opt (env w0))) w0) in
    (observable, nodifyObservable People observable callback w1).
Proof. unfold searchForPeopleInCache. now rewrite callOnEnv_spec. Qed.

Lemma searchForCoursesWithCache_spec flag opt callback w0 :
  searchForCoursesWithCache fetcher_searchForCourses seeker_searchForCourses
    flag opt callback w0
  = let live := searchForCourses fetcher_searchForCourses flag opt None w0 in
    let cached := searchForCoursesInCache seeker_searchForCourses opt None (snd live) in
    let observable := Rx.catch (fst live) (fst cached) in
    (observable, nodifyObservable Courses observable callback (snd cached)).
Proof.
  unfold searchForCoursesWithCache.
  destruct (searchForCourses _ flag opt None w0) as [live w1]. simpl.
  now destruct (searchForCoursesInCache _ opt None w1) as [cached w2].
Qed.

Lemma searchForPeopleWithCache_spec flag opt callback w0 :
  searchForPeopleWithCache fetcher_searchForPeople seeker_searchForPeople
    flag opt callback w0
  = let live := searchForPeople fetcher_searchForPeople flag opt None w0 in
    let cached := searchForPeopleInCache seeker_searchForPeople opt None (snd live) in
    let observable := Rx.catch (fst live) (fst cached) in
    (observable, nodifyObservable People observable callback (snd cached)).
Proof.
  unfold searchForPeopleWithCache.
  destruct (searchForPeople _ flag opt None w0) as [live w1]. simpl.
  now destruct (searchForPeopleInCache _ opt None w1) as [cached w2].
Qed.

Lemma catch_failed {A} (source handler : Obs' A) w e :
  failsWith e (fst (source w)) ->
  fst (Rx.catch source handler w) = fst (handler (snd (source w))).
Proof.
  unfold failsWith, Rx.catch. destruct (source w) as [o1 s1]. simpl.
  intros ->. simpl. destruct (handler s1) as [[vs t] s2]. reflexivity.
Qed.

Lemma fst_onEnv {A} (o : Rx.Observable Env A) w :
  fst (onEnv o w) = fst (o (env w)).
Proof. unfold onEnv. now destruct (o (env w)). Qed.

Lemma env_onEnv {A} (o : Rx.Observable Env A) w :
  env (snd (onEnv o w)) = snd (o (env w)).
Proof. unfold onEnv. now destruct (o (env w)). Qed.

(** A live attempt fails when there is no current user, and when the
    attempt of the Fetcher fails. *)
Lemma live_fails {A} flag msg (o : Rx.Observable Env A) w e :
  failsWith e (fst (o (env w))) ->
  exists e', failsWith e'
               (fst ((Rx.merge flag (requireCurrentUser msg) (onEnv o) : Obs' A) w)).
Proof.
  intros Hf. destruct (isUserExist w) eqn:Hw.
  - exists e. rewrite merge_guard_present by exact Hw. simpl.
    rewrite fst_onEnv. unfold failsWith in *. now rewrite Hf.
  - eexists. rewrite merge_guard_absent_state by exact Hw. reflexivity.
Qed.

(** C2. When the attempt of the Fetcher fails, a subscriber of the
    combined search is told exactly what the observable of the offline
    search for the same option delivers (the one
    [searchForCoursesInCache(option)] returns, that is the one the
    Seeker built for this option), subscribed in the state the failed
    live attempt leaves; likewise for people. *)
Theorem fallback_is_offline_search :
  forall (flag : bool) (optC : CoursesOption) (optP : PeopleOption)
         (callback : option nat) (w0 w : World') (e : Exception),
    (failsWith e (fst (fst (fetcher_searchForCourses optC (env w0)) (env w))) ->
     let live := searchForCourses fetcher_searchForCourses flag optC None w0 in
     let offline := searchForCoursesInCache seeker_searchForCourses optC None (snd live) in
     fst (fst (searchForCoursesWithCache fetcher_searchForCourses
                 seeker_searchForCourses flag optC callback w0) w)
     = fst (fst offline (snd (fst live w)))
     /\ fst (fst offline (snd (fst live w)))
        = fst (fst (seeker_searchForCourses optC (env (snd live)))
                 (env (snd (fst live w)))))
    /\ (failsWith e (fst (fst (fetcher_searchForPeople optP (env w0)) (env w))) ->
        let live := searchForPeople fetcher_searchForPeople flag optP None w0 in
        let offline := searchForPeopleInCache seeker_searchForPeople optP None (snd live) in
        fst (fst (searchForPeopleWithCache fetcher_searchForPeople
                    seeker_searchForPeople flag optP callback w0) w)
        = fst (fst offline (snd (fst live w)))
        /\ fst (fst offline (snd (fst live w)))
           = fst (fst (seeker_searchForPeople optP (env (snd live)))
                    (env (snd (fst live w))))).
Proof.
  intros flag optC optP callback w0 w e. split.
  - intros Hf live offline. split.
    + rewrite searchForCoursesWithCache_spec. simpl.
      destruct (live_fails flag coursesMessage _ w e Hf) as [e' He'].
      apply (catch_failed _ _ _ e').
      unfold live. rewrite searchForCourses_spec. exact He'.
    + unfold offline. rewrite searchForCoursesInCache_spec. simpl.
      now rewrite fst_onEnv.
  - intros Hf live offline. split.
    + rewrite searchForPeopleWithCache_spec. simpl.
      destruct (live_fails flag peopleMessage _ w e Hf) as [e' He'].
      apply (catch_failed _ _ _ e').
      unfold live. rewrite searchForPeople_spec. exact He'.
    + unfold offline. rewrite searchForPeopleInCache_spec. simpl.
      now rewrite fst_onEnv.
Qed.

Lemma quiet_combined {A} flag msg (o o' : Rx.Observable Env A) :
  quiet (Rx.catch (Rx.merge flag (requireCurrentUser msg) (onEnv o)) (onEnv o') : Obs' A).
Proof. apply quiet_catch; [apply quiet_live | apply quiet_onEnv]. Qed.

(** C9. The combined search calls the search method of the Seeker when
    it is called itself, once, right after that of the Fetcher and with
    the same option, whatever the Fetcher returns and before anything
    is subscribed: what the Seeker does when called is done, and the
    observable it returns is the argument of [catch]. *)
Theorem combined_search_calls_seeker_eagerly :
  forall (flag : bool) (optC : CoursesOption) (optP : PeopleOption)
         (callback : option nat) (w0 : World'),
    seekerInvocations
      (log (snd (searchForCoursesWithCache fetcher_searchForCourses
                   seeker_searchForCourses flag optC callback w0)))
    = S (seekerInvocations (log w0))
    /\ seekerInvocations
         (log (snd (searchForPeopleWithCache fetcher_searchForPeople
                      seeker_searchForPeople flag optP callback w0)))
       = S (seekerInvocations (log w0))
    /\ log (snd (searchForCoursesWithCache fetcher_searchForCourses
                   seeker_searchForCourses flag optC None w0))
       = log w0 ++ [FetcherSearchForCourses optC; SeekerSearchForCourses optC]
    /\ log (snd (searchForPeopleWithCache fetcher_searchForPeople
                   seeker_searchForPeople flag optP None w0))
       = log w0 ++ [FetcherSearchForPeople optP; SeekerSearchForPeople optP]
    /\ env (snd (searchForCoursesWithCache fetcher_searchForCourses
                   seeker_searchForCourses flag optC None w0))
       = snd (seeker_searchForCourses optC
                (snd (fetcher_searchForCourses optC (env w0))))
    /\ env (snd (searchForPeopleWithCache fetcher_searchForPeople
                   seeker_searchForPeople flag optP None w0))
       = snd (seeker_searchForPeople optP
                (snd (fetcher_searchForPeople optP (env w0)))).
Proof.
  intros flag optC optP callback w0.
  assert (Hcount : forall (evF evS : Event') (w2 w3 : World'),
             isSeekerCall evF = false -> isSeekerCall evS = true ->
             log w2 = log w0 ++ [evF; evS] -> onlyCallbacksSince w2 w3 ->
             seekerInvocations (log w3) = S (seekerInvocations (log w0))).
  { intros evF evS w2 w3 HF HS Hw2 (_ & _ & evs & Hw3 & Hcb).
    rewrite Hw3, Hw2, !seekerInvocations_app, (callbacks_no_seeker _ Hcb).
    unfold seekerInvocations at 2. simpl. rewrite HF, HS. simpl. lia. }
  repeat split.
  - rewrite searchForCoursesWithCache_spec; cbv zeta.
    rewrite searchForCourses_spec; cbv zeta.
    rewrite searchForCoursesInCache_spec; cbv zeta. cbn [fst snd nodifyObservable].
    eapply (Hcount (FetcherSearchForCourses optC) (SeekerSearchForCourses optC));
      [reflexivity | reflexivity | | apply nodifyObservable_quiet, quiet_combined].
    simpl. now rewrite <- app_assoc.
  - rewrite searchForPeopleWithCache_spec; cbv zeta.
    rewrite searchForPeople_spec; cbv zeta.
    rewrite searchForPeopleInCache_spec; cbv zeta. cbn [fst snd nodifyObservable].
    eapply (Hcount (FetcherSearchForPeople optP) (SeekerSearchForPeople optP));
      [reflexivity | reflexivity | | apply nodifyObservable_quiet, quiet_combined].
    simpl. now rewrite <- app_assoc.
  - rewrite searchForCoursesWithCache_spec; cbv zeta.
    rewrite searchForCourses_spec; cbv zeta.
    rewrite searchForCoursesInCache_spec; cbv zeta. simpl. now rewrite <- app_assoc.
  - rewrite searchForPeopleWithCache_spec; cbv zeta.
    rewrite searchForPeople_spec; cbv zeta.
    rewrite searchForPeopleInCache_spec; cbv zeta. simpl. now rewrite <- app_assoc.
  - rewrite searchForCoursesWithCache_spec; cbv zeta.
    rewrite searchForCourses_spec; cbv zeta.
    rewrite searchForCoursesInCache_spec; cbv zeta. reflexivity.
  - rewrite searchForPeopleWithCache_spec; cbv zeta.
    rewrite searchForPeople_spec; cbv zeta.
    rewrite searchForPeopleInCache_spec; cbv zeta. reflexivity.
Qed.

(** ** Users: register, one and verify *)

Lemma confinedTo_onUser {A} l (o : Rx.Observable (User * Env) A) :
  confinedTo l (onUser l o : Obs' A).
Proof.
  split; [apply quiet_onUser |]. intros w. unfold onUser.
  destruct (heap w !! l) as [u |] eqn:Hl; [| simpl; rewrite Hl; split; auto].
  destruct (o (u, env w)) as [out [u' e']]. simpl. split.
  - intros l' Hne. now rewrite lookup_insert_ne.
  - intros _. rewrite lookup_insert_eq. eauto.
Qed.

Lemma confinedTo_idle {A} l (out : Rx.Outcome A) :
  confinedTo l ((fun s => (out, s)) : Obs' A).
Proof. repeat split; auto. Qed.

Lemma User_confirm_frame l w :
  users (snd (User_confirm user_confirm l w)) = users w
  /\ currentUser (snd (User_confirm user_confirm l w)) = currentUser w
  /\ (forall l', l' <> l ->
        heap (snd (User_confirm user_confirm l w)) !! l' = heap w !! l')
  /\ (is_Some (heap w !! l) ->
        is_Some (heap (snd (User_confirm user_confirm l w)) !! l))
  /\ log (snd (User_confirm user_confirm l w))
     = log w ++ match heap w !! l with Some _ => [UserConfirm l] | None => [] end
  /\ confinedTo l (fst (User_confirm user_confirm l w)).
Proof.
  unfold User_confirm. destruct (heap w !! l) as [u |] eqn:Hl.
  - destruct (user_confirm (u, env w)) as [o [u' e']]. simpl.
    split_and!; [reflexivity | reflexivity | | | reflexivity |].
    + intros l' Hne. now rewrite lookup_insert_ne.
    + rewrite lookup_insert_eq. eauto.
    + apply (confinedTo_onUser l o).
  - simpl. rewrite Hl, app_nil_r.
    split_and!; [reflexivity | reflexivity | auto | auto | reflexivity |].
    apply (confinedTo_idle l).
Qed.

Lemma subscribe_setCurrentUser {A} (o : Obs' A) (v : JsRef) w :
  let w' := Rx.subscribe o (fun _ st => setCurrentUser v st) w in
  users w' = users (snd (o w)) /\ heap w' = heap (snd (o w))
  /\ env w' = env (snd (o w)) /\ log w' = log (snd (o w)).
Proof.
  unfold Rx.subscribe. destruct (o w) as [out s]. simpl.
  generalize (Rx.values out) as vs. intros vs. revert s.
  induction vs as [| a vs IH]; intros s; simpl; [auto |].
  destruct (IH (setCurrentUser v s)) as (-> & -> & -> & ->). auto.
Qed.

Lemma one_lookup i w :
  one i w = match users w !! i with
            | Some l => ref l
            | None => if isInherited i then inherited i else null
            end.
Proof.
  unfold one, jsGet, jsOr. destruct (users w !! i); [reflexivity |].
  now destruct (isInherited i).
Qed.

Lemma isInherited_In (key : string) :
  isInherited key = true <-> In key objectPrototypeNames.
Proof.
  unfold isInherited. rewrite existsb_exists. split.
  - intros (name & Hin & Heq). apply String.eqb_eq in Heq. now subst.
  - intros Hin. exists key. split; [exact Hin | apply String.eqb_refl].
Qed.

Lemma register_spec i p w :
  let l := fresh (dom (heap w)) in
  fst (register user_confirm i p w) = l
  /\ users (snd (register user_confirm i p w)) = <[i := l]> (users w)
  /\ is_Some (heap (snd (register user_confirm i p w)) !! l)
  /\ (forall l', l' <> l ->
        heap (snd (register user_confirm i p w)) !! l' = heap w !! l').
Proof.
  intros l. unfold register, User_alloc. fold l.
  set (w1 := setHeap (<[l := User_new i p]> (heap w)) w).
  set (w2 := setUsers (<[i := l]> (users w1)) w1).
  assert (Hl2 : is_Some (heap w2 !! l)) by (simpl; rewrite lookup_insert_eq; eauto).
  assert (Hne2 : forall l', l' <> l -> heap w2 !! l' = heap w !! l')
    by (intros l' Hne; simpl; now rewrite lookup_insert_ne).
  destruct (negb (isUserExist w2)); simpl; [| repeat split; auto].
  pose proof (User_confirm_frame l w2) as (Hu & _ & Hh & Hs & _ & Hq & Hc).
  destruct (User_confirm user_confirm l w2) as [confirmation w']. simpl in *.
  pose proof (subscribe_setCurrentUser confirmation (ref l) w') as (Hu' & Hh' & _ & _).
  destruct (Hq w') as (Hqu & _ & _). destruct (Hc w') as (Hch & Hcs).
  repeat split.
  - rewrite Hu', Hqu, Hu. reflexivity.
  - rewrite Hh'. auto.
  - intros l' Hne. rewrite Hh', Hch, Hh by exact Hne. auto.
Qed.

(** C7. [one(id)] returns the instance stored under [id], whichever
    [id] is. Under an id with no entry it returns [null], as its
    documentation says, except when the id is a name that
    [cacher.users] inherits from [Object.prototype]: then it returns the
    inherited member, which is neither [null] nor a user. So
    [one("constructor")] in an application where nobody is registered is
    not [null]. *)
Theorem one_reads_inherited_names :
  (forall (w : World') (j : string) (l : loc),
      users w !! j = Some l -> one j w = ref l)
  /\ (forall (w : World') (j : string),
        users w !! j = None -> ~ In j objectPrototypeNames -> one j w = null)
  /\ (forall (w : World') (j : string),
        users w !! j = None -> In j objectPrototypeNames ->
        one j w = inherited j /\ one j w <> null
        /\ forall l, one j w <> ref l)
  /\ (forall w : World',
        users w = ∅ ->
        one "constructor" w = inherited "constructor" /\ one "constructor" w <> null).
Proof.
  split_and!.
  - intros w j l Hj. now rewrite one_lookup, Hj.
  - intros w j Hj Hout. rewrite one_lookup, Hj.
    destruct (isInherited j) eqn:Hi; [| reflexivity].
    apply isInherited_In in Hi. contradiction.
  - intros w j Hj Hin. rewrite one_lookup, Hj.
    apply isInherited_In in Hin. rewrite Hin. split_and!; congruence.
  - intros w Hw. rewrite one_lookup, Hw, lookup_empty. split; [reflexivity | discriminate].
Qed.

Lemma verify_spec i p callback w :
  let l := fresh (dom (heap w)) in
  let w1 := setHeap (<[l := User_new i p]> (heap w)) w in
  verify user_confirm i p callback w
  = (fst (User_confirm user_confirm l w1),
     nodifyObservable Flag (fst (User_confirm user_confirm l w1)) callback
       (snd (User_confirm user_confirm l w1))).
Proof.
  intros l w1. unfold verify, User_alloc. fold l. fold w1.
  now destruct (User_confirm user_confirm l w1).
Qed.

Lemma nodifyObservable_heap {A} (wrap : A -> Payload) (o : Obs' A) callback l w :
  confinedTo l o ->
  forall l', l' <> l -> heap (nodifyObservable wrap o callback w) !! l' = heap w !! l'.
Proof.
  intros [_ Hc] l' Hne. destruct callback as [cb |]; [| reflexivity]. simpl.
  destruct (Hc w) as [Hh _]. specialize (Hh l' Hne).
  destruct (o w) as [out w']. exact Hh.
Qed.

Lemma verify_called i p w :
  let l := fresh (dom (heap w)) in
  let called := user_confirm (User_new i p, env w) in
  User_confirm user_confirm l (setHeap (<[l := User_new i p]> (heap w)) w)
  = (onUser l (fst called),
     record (UserConfirm l)
       (setEnv (snd (snd called))
          (setHeap (<[l := fst (snd called)]> (<[l := User_new i p]> (heap w))) w))).
Proof.
  intros l called. unfold User_confirm. simpl. rewrite lookup_insert_eq.
  unfold called. now destruct (user_confirm (User_new i p, env w)) as [o [u1 e1]].
Qed.

Lemma onUser_eq {A} l (o : Rx.Observable (User * Env) A) w (u : User) :
  heap w !! l = Some u ->
  onUser l o w
  = (fst (o (u, env w)),
     setEnv (snd (snd (o (u, env w))))
       (setHeap (<[l := fst (snd (o (u, env w)))]> (heap w)) w)).
Proof.
  intros Hl. unfold onUser. rewrite Hl.
  now destruct (o (u, env w)) as [out [u' e']].
Qed.

(** C10. [verify(id, password)] constructs a user of its own, a new
    instance with the given id and password that is not confirmed, calls
    [confirm] on it, once, and returns the observable of that
    confirmation: a subscriber is told what the confirmation of this
    user delivers, and a callback makes the call subscribe at once and
    pass that on. Neither the call
    nor a subscription to the returned observable changes [cacher.users]
    or [currentUser], whatever the confirmation says, and the instances
    that existed before the call are left as they were. *)
Theorem verify_leaves_application_state :
  forall (i p : string) (callback : option nat) (w : World'),
    let l := fresh (dom (heap w)) in
    let called := user_confirm (User_new i p, env w) in
    users (snd (verify user_confirm i p callback w)) = users w
    /\ currentUser (snd (verify user_confirm i p callback w)) = currentUser w
    /\ (forall l, l ∈ dom (heap w) ->
          heap (snd (verify user_confirm i p callback w)) !! l = heap w !! l)
    /\ (forall ws : World',
          users (snd (fst (verify user_confirm i p callback w) ws)) = users ws
          /\ currentUser (snd (fst (verify user_confirm i p callback w) ws))
             = currentUser ws
          /\ (forall l, l ∈ dom (heap w) ->
                heap (snd (fst (verify user_confirm i p callback w) ws)) !! l
                = heap ws !! l))
    /\ (l ∉ dom (heap w))
    /\ snd (verify user_confirm i p None w)
       = record (UserConfirm l)
           (setEnv (snd (snd called))
              (setHeap (<[l := fst (snd called)]> (<[l := User_new i p]> (heap w))) w))
    /\ (forall cb,
          log (snd (verify user_confirm i p (Some cb) w))
          = log w ++ UserConfirm l :: callbackCalls Flag cb (fst (fst called (snd called))))
    /\ (forall cb,
          snd (verify user_confirm i p (Some cb) w)
          = recordAll
              (callbackCalls Flag cb
                 (fst (fst (verify user_confirm i p None w)
                         (snd (verify user_confirm i p None w)))))
              (snd (fst (verify user_confirm i p None w)
                      (snd (verify user_confirm i p None w)))))
    /\ (forall (ws : World') (u : User),
          heap ws !! l = Some u ->
          fst (verify user_confirm i p callback w) ws
          = (fst (fst called (u, env ws)),
             setEnv (snd (snd (fst called (u, env ws))))
               (setHeap (<[l := fst (snd (fst called (u, env ws)))]> (heap ws)) ws))).
Proof.
  intros i p callback w l called.
  assert (Hfresh : forall l', l' ∈ dom (heap w) -> l' <> l).
  { intros l' Hin ->. exact (is_fresh (dom (heap w)) Hin). }
  set (w1 := setHeap (<[l := User_new i p]> (heap w)) w).
  pose proof (User_confirm_frame l w1) as (Hu & Hcu & Hh & _ & _ & Hq & Hc).
  pose proof (nodifyObservable_quiet Flag _ callback
                (snd (User_confirm user_confirm l w1)) Hq) as (Hnu & Hncu & _).
  assert (Hcalled : User_confirm user_confirm l w1
                    = (onUser l (fst called),
                       record (UserConfirm l)
                         (setEnv (snd (snd called))
                            (setHeap (<[l := fst (snd called)]>
                                        (<[l := User_new i p]> (heap w))) w))))
    by apply verify_called.
  assert (Hverify : forall cb,
             verify user_confirm i p cb w
             = (fst (User_confirm user_confirm l w1),
                nodifyObservable Flag (fst (User_confirm user_confirm l w1)) cb
                  (snd (User_confirm user_confirm l w1))))
    by (intros cb; apply verify_spec).
  rewrite !Hverify. cbn [fst snd]. split_and!.
  - rewrite Hnu, Hu. reflexivity.
  - rewrite Hncu, Hcu. reflexivity.
  - intros l' Hin. specialize (Hfresh l' Hin).
    rewrite (nodifyObservable_heap Flag _ callback l _ (conj Hq Hc) l' Hfresh).
    rewrite Hh by exact Hfresh. simpl. now rewrite lookup_insert_ne.
  - intros ws. split_and!; [apply (Hq ws) | apply (Hq ws) |].
    intros l' Hin. apply (Hc ws). auto.
  - apply is_fresh.
  - rewrite Hcalled. reflexivity.
  - intros cb. rewrite Hverify, Hcalled. cbn [fst snd nodifyObservable].
    rewrite (onUser_eq l (fst called) _ (fst (snd called)))
      by (simpl; apply lookup_insert_eq).
    simpl. rewrite <- app_assoc. simpl.
    now destruct (snd called).
  - intros cb. rewrite !Hverify. cbn [fst snd nodifyObservable].
    now destruct (fst (User_confirm user_confirm l w1)
                    (snd (User_confirm user_confirm l w1))).
  - intros ws u Hws. rewrite Hcalled. cbn [fst]. now apply onUser_eq.
Qed.

End ApplicationFacts.

(* ===================================================================== *)
(** * Offline search with the Seeker of the spec *)

Section OfflineSearchFacts.

Context {Course Person Env : Type}.
Variable cachedCourses : Env -> list Course.
Variable cachedPeople : Env -> list Person.
Abbreviation SWorld :=
  (@World Course Person (SearchOption Course) (SearchOption Person) Env).

Lemma Seeker_search_subscribed {Entity} (cached : Env -> list Entity)
    (opt : SearchOption Entity) (e : Env) (ws : SWorld) :
  onEnv (fst (Seeker_search cached opt e)) ws
  = ({| Rx.values := [List.filter (satisfies opt) (cached (env ws))];
        Rx.terminal := Rx.Completed |}, ws).
Proof. unfold onEnv, Seeker_search. simpl. now rewrite setEnv_env. Qed.

Lemma satisfies_nil {Entity} (x : Entity) : satisfies [] x = true.
Proof. reflexivity. Qed.

(** C8. With the Seeker of the spec, an offline search never fails:
    whoever subscribes is told one result, the cached entities that
    match the option, and then completion, and the subscription changes
    nothing; the call reaches the Seeker only (no call of the Fetcher),
    and leaves the users, the instances, the current user and the
    collaborators' state as they are. On an empty cache the result is
    the empty sequence. *)
Theorem offline_search_never_fails :
  forall (optC : SearchOption Course) (optP : SearchOption Person)
         (callback : option nat) (w0 ws : SWorld),
    (fst (fst (searchForCoursesInCache (Seeker_search cachedCourses) optC callback w0) ws)
     = {| Rx.values := [List.filter (satisfies optC) (cachedCourses (env ws))];
          Rx.terminal := Rx.Completed |}
     /\ snd (fst (searchForCoursesInCache (Seeker_search cachedCourses) optC callback w0) ws)
        = ws
     /\ (cachedCourses (env ws) = [] ->
         fst (fst (searchForCoursesInCache (Seeker_search cachedCourses) optC callback w0) ws)
         = {| Rx.values := [[]]; Rx.terminal := Rx.Completed |})
     /\ onlyCallbacksSince (record (SeekerSearchForCourses optC) w0)
          (snd (searchForCoursesInCache (Seeker_search cachedCourses) optC callback w0))
     /\ heap (snd (searchForCoursesInCache (Seeker_search cachedCourses) optC callback w0))
        = heap w0
     /\ env (snd (searchForCoursesInCache (Seeker_search cachedCourses) optC callback w0))
        = env w0
     /\ fetcherInvocations
          (log (snd (searchForCoursesInCache (Seeker_search cachedCourses) optC callback w0)))
        = fetcherInvocations (log w0))
    /\ (fst (fst (searchForPeopleInCache (Seeker_search cachedPeople) optP callback w0) ws)
        = {| Rx.values := [List.filter (satisfies optP) (cachedPeople (env ws))];
             Rx.terminal := Rx.Completed |}
        /\ snd (fst (searchForPeopleInCache (Seeker_search cachedPeople) optP callback w0) ws)
           = ws
        /\ (cachedPeople (env ws) = [] ->
            fst (fst (searchForPeopleInCache (Seeker_search cachedPeople) optP callback w0) ws)
            = {| Rx.values := [[]]; Rx.terminal := Rx.Completed |})
        /\ onlyCallbacksSince (record (SeekerSearchForPeople optP) w0)
             (snd (searchForPeopleInCache (Seeker_search cachedPeople) optP callback w0))
        /\ heap (snd (searchForPeopleInCache (Seeker_search cachedPeople) optP callback w0))
           = heap w0
        /\ env (snd (searchForPeopleInCache (Seeker_search cachedPeople) optP callback w0))
           = env w0
        /\ fetcherInvocations
             (log (snd (searchForPeopleInCache (Seeker_search cachedPeople) optP callback w0)))
           = fetcherInvocations (log w0)).
Proof.
  intros optC optP callback w0 ws.
  assert (Hgen : forall {Entity} (cached : Env -> list Entity) (wrap : list Entity -> Payload)
                   (opt : SearchOption Entity) (ev : Event),
             isFetcherCall ev = false ->
             let observable : Rx.Observable SWorld (list Entity) :=
               onEnv (fst (Seeker_search cached opt (env w0))) in
             let w1 := record ev (setEnv (snd (Seeker_search cached opt (env w0))) w0) in
             fst (observable ws)
             = {| Rx.values := [List.filter (satisfies opt) (cached (env ws))];
                  Rx.terminal := Rx.Completed |}
             /\ snd (observable ws) = ws
             /\ (cached (env ws) = [] ->
                 fst (observable ws) = {| Rx.values := [[]]; Rx.terminal := Rx.Completed |})
             /\ onlyCallbacksSince (record ev w0) (nodifyObservable wrap observable callback w1)
             /\ heap (nodifyObservable wrap observable callback w1) = heap w0
             /\ env (nodifyObservable wrap observable callback w1) = env w0
             /\ fetcherInvocations (log (nodifyObservable wrap observable callback w1))
                = fetcherInvocations (log w0)).
  { intros Entity cached wrap opt ev Hev observable w1.
    assert (Hw1 : w1 = record ev w0) by (unfold w1; simpl; now rewrite setEnv_env).
    assert (Hsub : forall w, observable w
              = ({| Rx.values := [List.filter (satisfies opt) (cached (env w))];
                    Rx.terminal := Rx.Completed |}, w))
      by (intros w; apply Seeker_search_subscribed).
    assert (Hcb : onlyCallbacksSince (record ev w0)
                    (nodifyObservable wrap observable callback w1)).
    { rewrite Hw1. apply nodifyObservable_quiet. apply quiet_onEnv. }
    split_and!.
    - now rewrite Hsub.
    - now rewrite Hsub.
    - intros Hempty. now rewrite Hsub, Hempty.
    - exact Hcb.
    - destruct callback as [cb |]; unfold nodifyObservable;
        [rewrite Hsub |]; rewrite Hw1; reflexivity.
    - destruct callback as [cb |]; unfold nodifyObservable;
        [rewrite Hsub |]; rewrite Hw1; reflexivity.
    - destruct Hcb as (_ & _ & evs & -> & Hevs).
      rewrite fetcherInvocations_app, (callbacks_no_fetcher _ Hevs). simpl.
      rewrite fetcherInvocations_app. unfold fetcherInvocations at 2. simpl.
      rewrite Hev. simpl. lia. }
  split.
  - rewrite searchForCoursesInCache_spec. cbv zeta.
    apply (Hgen Course cachedCourses Courses optC (SeekerSearchForCourses optC)).
    reflexivity.
  - rewrite searchForPeopleInCache_spec. cbv zeta.
    apply (Hgen Person cachedPeople People optP (SeekerSearchForPeople optP)).
    reflexivity.
Qed.

End OfflineSearchFacts.

(* ===================================================================== *)
(** * The sample installation at work *)

Module SampleFacts.
Import Sample.
Local Open Scope list_scope.

(** C1, as stated, fails: with no current user the search method of the
    Fetcher is invoked all the same, once for each search. *)
Lemma privileged_search_invokes_fetcher_counterexample :
  isUserExist (start reachable) = false
  /\ fetcherInvocations
       (log (snd (searchForCourses fetchCourses false (byInstructor "Li") None
                    (start reachable)))) <> 0%nat
  /\ fetcherInvocations
       (log (snd (searchForPeople fetchPeople false (byName "Li") None
                    (start reachable)))) <> 0%nat.
Proof. split; [reflexivity | split; discriminate]. Qed.

Lemma privileged_search_without_user_witness :
  log (snd (searchForCourses fetchCourses true (byInstructor "Li") (Some 7%nat)
              (start reachable)))
  = [FetcherSearchForCourses (byInstructor "Li");
     Callback 7 (Some (exceptionFactory_new AuthorizationRequired coursesMessage)) None].
Proof.
  exact (proj1 (privileged_search_without_user fetchCourses fetchPeople true
                  (byInstructor "Li") (byName "Li") (start reachable) eq_refl) 7%nat).
Defined.

Lemma fallback_is_offline_search_witness :
  fst (fst (searchForCoursesWithCache fetchCourses (Seeker_search cachedCourses) true
              (byInstructor "Wang") None (signedIn offline))
         (signedIn offline))
  = {| Rx.values := [[ {| title := "Logic"; instructor := "Wang" |} ]];
       Rx.terminal := Rx.Completed |}.
Proof.
  destruct (proj1 (fallback_is_offline_search fetchCourses fetchPeople
                     (Seeker_search cachedCourses) (Seeker_search cachedPeople)
                     true (byInstructor "Wang") (byName "Li") None
                     (signedIn offline) (signedIn offline) NetworkFailure)
              eq_refl) as [Hcombined _].
  rewrite Hcombined. reflexivity.
Defined.

Lemma one_reads_inherited_names_witness :
  one "constructor" (start reachable) = inherited "constructor"
  /\ one "toString" (start reachable) <> null
  /\ one "2013019050020" (start reachable) = null
  /\ one "2012019050020" (signedIn reachable) = ref 1%positive.
Proof.
  destruct (@one_reads_inherited_names Course Person (SearchOption Course)
              (SearchOption Person) Env) as (Hown & Hnone & Hinherited & Hfresh).
  split_and!.
  - apply (Hfresh (start reachable)). reflexivity.
  - apply (Hinherited (start reachable)); [reflexivity |]. simpl. tauto.
  - apply (Hnone (start reachable)); [reflexivity |].
    simpl. intros H. decompose [or] H; discriminate || assumption.
  - apply (Hown (signedIn reachable)). reflexivity.
Defined.

Lemma verify_leaves_application_state_witness :
  currentUser (snd (verify confirm "2013019050020" "811073" (Some 3%nat)
                      (signedIn reachable))) = ref 1%positive
  /\ heap (snd (verify confirm "2013019050020" "811073" (Some 3%nat)
                  (signedIn reachable))) !! 1%positive
     = heap (signedIn reachable) !! 1%positive
  /\ fst (fst (verify confirm "2013019050020" "811073" (Some 3%nat)
                 (signedIn reachable))
            (snd (verify confirm "2013019050020" "811073" (Some 3%nat)
                    (signedIn reachable))))
     = {| Rx.values := [true]; Rx.terminal := Rx.Completed |}.
Proof.
  destruct (verify_leaves_application_state confirm "2013019050020" "811073"
              (Some 3%nat) (signedIn reachable))
    as (_ & Hcurrent & Hheap & _ & _ & _ & _ & _ & Hreturned).
  split_and!.
  - exact Hcurrent.
  - apply Hheap. apply elem_of_dom. eexists. reflexivity.
  - rewrite (Hreturned _ {| id := "2013019050020"; password := "811073";
                            isConfirmed := true |}); reflexivity.
Defined.

Lemma offline_search_never_fails_witness :
  fst (fst (searchForCoursesInCache (Seeker_search cachedCourses)
              (byInstructor "Li") None (start reachable))
         (start reachable))
  = {| Rx.values := [[]]; Rx.terminal := Rx.Completed |}.
Proof.
  destruct (offline_search_never_fails cachedCourses cachedPeople
              (byInstructor "Li") (byName "Li") None
              (start reachable) (start reachable)) as [(_ & _ & Hempty & _) _].
  apply Hempty. reflexivity.
Defined.

(** With a current user and the portal in reach, the combined search
    delivers what the Fetcher found; the stream stays open, since the
    guard it is merged with never completes. *)
Example combined_search_online :
  fst (fst (searchForCoursesWithCache fetchCourses (Seeker_search cachedCourses) false
              (byInstructor "Li") None (signedIn reachable))
         (signedIn reachable))
  = {| Rx.values := [[ {| title := "Compilers"; instructor := "Li" |} ]];
       Rx.terminal := Rx.Open |}.
Proof. reflexivity. Qed.

(** With the portal out of reach it delivers what the cache holds. *)
Example combined_search_offline :
  fst (fst (searchForCoursesWithCache fetchCourses (Seeker_search cachedCourses) false
              [] None (signedIn offline))
         (signedIn offline))
  = {| Rx.values := [[ {| title := "Logic"; instructor := "Wang" |} ]];
       Rx.terminal := Rx.Completed |}.
Proof. reflexivity. Qed.

(** The first registration makes its user the current one; [verify]
    with the same credentials does not. *)
Example register_sets_currentUser :
  currentUser (snd (register confirm "2012019050020" "811073" (start reachable)))
  = ref (fst (register confirm "2012019050020" "811073" (start reachable)))
  /\ currentUser (snd (verify confirm "2012019050020" "811073" None (start reachable)))
     = null.
Proof. split; vm_compute; reflexivity. Qed.

End SampleFacts.

(* ===================================================================== *)
(** * The constructor, registration and clients *)

Section LifecycleFacts.

Context {Course Person CoursesOption PeopleOption Env : Type}.
Local Open Scope list_scope.
Abbreviation FWorld := (@World Course Person CoursesOption PeopleOption Env).
Abbreviation FObs A := (Rx.Observable FWorld A).
Implicit Types (w ws : FWorld).

(** ** The constructor *)

Lemma findConfirmed_first w (before after : list string) k l :
  confirmedAt w k l ->
  (forall k' l', k' ∈ before -> ~ confirmedAt w k' l') ->
  findConfirmed w (before ++ k :: after) = ref l.
Proof.
  intros (Hk & u & Hu & Hc) Hbefore.
  induction before as [| b before IH]; simpl.
  - now rewrite Hk, Hu, Hc.
  - assert (IH' : findConfirmed w (before ++ k :: after) = ref l).
    { apply IH. intros k' l' Hin. apply Hbefore. now right. }
    destruct (users w !! b) as [lb |] eqn:Hb; [| exact IH'].
    destruct (heap w !! lb) as [ub |] eqn:Hub; [| exact IH'].
    destruct (isConfirmed ub) eqn:Hcb; [| exact IH'].
    exfalso. apply (Hbefore b lb); [now left |].
    split; [exact Hb | eauto].
Qed.

Lemma findConfirmed_found w (keys : list string) l :
  findConfirmed w keys = ref l ->
  exists before k after,
    keys = before ++ k :: after /\ confirmedAt w k l
    /\ forall k' l', k' ∈ before -> ~ confirmedAt w k' l'.
Proof.
  induction keys as [| b keys IH]; simpl; [discriminate |].
  intros Hf.
  assert (Hrest : (forall lb, ~ confirmedAt w b lb) ->
                  findConfirmed w keys = ref l ->
                  exists before k after,
                    b :: keys = before ++ k :: after /\ confirmedAt w k l
                    /\ forall k' l', k' ∈ before -> ~ confirmedAt w k' l').
  { intros Hb Hk. destruct (IH Hk) as (before & k & after & -> & Hc & Hn).
    exists (b :: before), k, after. split; [reflexivity | split; [exact Hc |]].
    intros k' l' [-> | Hin]%elem_of_cons; [apply Hb | now apply Hn]. }
  destruct (users w !! b) as [lb |] eqn:Hb.
  - destruct (heap w !! lb) as [ub |] eqn:Hub.
    + destruct (isConfirmed ub) eqn:Hcb.
      * injection Hf as <-. exists [], b, keys.
        split; [reflexivity | split; [split; eauto |]].
        intros k' l' Hin. inversion Hin.
      * apply Hrest; [| exact Hf].
        intros lb' (Hb' & u & Hu & Hc). congruence.
    + apply Hrest; [| exact Hf].
      intros lb' (Hb' & u & Hu & Hc). congruence.
  - apply Hrest; [| exact Hf].
    intros lb' (Hb' & _). congruence.
Qed.

Lemma findConfirmed_own w (keys : list string) (name : string) :
  findConfirmed w keys <> inherited name.
Proof.
  induction keys as [| b keys IH]; simpl; [discriminate |].
  destruct (users w !! b) as [lb |]; [| exact IH].
  destruct (heap w !! lb) as [ub |]; [| exact IH].
  destruct (isConfirmed ub); [discriminate | exact IH].
Qed.

Lemma findConfirmed_none w (keys : list string) :
  findConfirmed w keys = undefined <-> forall k l, k ∈ keys -> ~ confirmedAt w k l.
Proof.
  split.
  - induction keys as [| b keys IH]; simpl.
    + intros _ k l Hin. inversion Hin.
    + intros Hf k l [-> | Hin]%elem_of_cons (Hk & u & Hu & Hc).
      * rewrite Hk, Hu, Hc in Hf. discriminate.
      * assert (Hrest : findConfirmed w keys = undefined).
        { destruct (users w !! b) as [lb |]; [| exact Hf].
          destruct (heap w !! lb) as [ub |]; [| exact Hf].
          destruct (isConfirmed ub); [discriminate | exact Hf]. }
        apply (IH Hrest k l Hin). split; eauto.
  - intros Hnone. destruct (findConfirmed w keys) as [| | l | name] eqn:Hf;
      [reflexivity | | |].
    + exfalso. clear Hnone. induction keys as [| b keys IH]; simpl in Hf; [discriminate |].
      destruct (users w !! b) as [lb |]; [| auto].
      destruct (heap w !! lb) as [ub |]; [| auto].
      destruct (isConfirmed ub); [discriminate | auto].
    + apply findConfirmed_found in Hf as (before & k & after & -> & Hc & _).
      exfalso. apply (Hnone k l); [| exact Hc].
      apply elem_of_app. right. now left.
    + exfalso. exact (findConfirmed_own w keys name Hf).
Qed.

Lemma findConfirmed_not_null w (keys : list string) : findConfirmed w keys <> null.
Proof.
  induction keys as [| b keys IH]; simpl; [discriminate |].
  destruct (users w !! b) as [lb |]; [| exact IH].
  destruct (heap w !! lb) as [ub |]; [| exact IH].
  destruct (isConfirmed ub); [discriminate | exact IH].
Qed.

(** X1. The constructor changes nothing but the current user, which it
    sets to the first confirmed instance of [cacher.users] in
    enumeration order, and to [null] (never [undefined]) when no
    enumerated instance is confirmed; so a new application has a current
    user exactly when some registered user is confirmed. *)
Theorem constructor_picks_first_confirmed :
  forall (keys : list string) (w : FWorld),
    users (Application_constructor keys w) = users w
    /\ heap (Application_constructor keys w) = heap w
    /\ env (Application_constructor keys w) = env w
    /\ log (Application_constructor keys w) = log w
    /\ currentUser (Application_constructor keys w) <> undefined
    /\ (forall l, currentUser (Application_constructor keys w) = ref l <->
          exists before k after,
            keys = before ++ k :: after /\ confirmedAt w k l
            /\ forall k' l', k' ∈ before -> ~ confirmedAt w k' l')
    /\ (currentUser (Application_constructor keys w) = null <->
          forall k l, k ∈ keys -> ~ confirmedAt w k l)
    /\ (enumerates keys w ->
          (isUserExist (Application_constructor keys w) = true <->
           exists k l, confirmedAt w k l)).
Proof.
  intros keys w. unfold Application_constructor, jsOr. simpl.
  pose proof (findConfirmed_not_null w keys) as Hnn.
  pose proof (findConfirmed_own w keys) as Hown.
  assert (Hnull : (if truthy (findConfirmed w keys) then findConfirmed w keys else null) = null
                  <-> forall k l, k ∈ keys -> ~ confirmedAt w k l).
  { rewrite <- findConfirmed_none.
    destruct (findConfirmed w keys) as [| | l | name]; simpl; split; congruence. }
  split_and!; try reflexivity.
  - destruct (findConfirmed w keys); simpl; congruence.
  - intros l. split.
    + intros Hl. apply findConfirmed_found.
      destruct (findConfirmed w keys); simpl in Hl; congruence.
    + intros (before & k & after & -> & Hc & Hn).
      now rewrite (findConfirmed_first w before after k l Hc Hn).
  - exact Hnull.
  - intros Henum. unfold isUserExist. simpl. split.
    + intros Ht.
      destruct (findConfirmed w keys) as [| | l | name] eqn:Hf; simpl in Ht;
        try discriminate.
      * apply findConfirmed_found in Hf as (_ & k & _ & _ & Hc & _). eauto.
      * now destruct (Hown name).
    + intros (k & l & Hc).
      destruct (findConfirmed w keys) as [| | l' | name] eqn:Hf; simpl;
        [| congruence | reflexivity | reflexivity].
      exfalso. apply (proj1 (findConfirmed_none w keys) Hf k l); [| exact Hc].
      apply Henum. destruct Hc as [Hk _]. eauto.
Qed.

(** ** Registration *)

Variable user_confirm : Method (User * Env) bool.

Lemma fold_setCurrentUser_frame {A} (v : JsRef) (vs : list A) w :
  let w' := fold_left (fun st (_ : A) => setCurrentUser v st) vs w in
  users w' = users w /\ heap w' = heap w /\ env w' = env w /\ log w' = log w
  /\ currentUser w' = match vs with [] => currentUser w | _ :: _ => v end.
Proof.
  revert w. induction vs as [| a vs IH]; intros w; simpl; [auto 6 |].
  destruct (IH (setCurrentUser v w)) as (-> & -> & -> & -> & ->).
  simpl. split_and!; try reflexivity. now destruct vs.
Qed.

(** What [register] does when there is no current user: the state after
    the confirmation has been created and subscribed, before its values
    reach the subscriber. *)
Lemma register_absent i p w :
  isUserExist w = false ->
  let l := fresh (dom (heap w)) in
  let called := user_confirm (User_new i p, env w) in
  let subscribed := fst called (snd called) in
  exists w4 : FWorld,
    register user_confirm i p w
    = (l, fold_left (fun st (_ : bool) => setCurrentUser (ref l) st)
            (Rx.values (fst subscribed)) w4)
    /\ users w4 = <[i := l]> (users w)
    /\ heap w4 = <[l := fst (snd subscribed)]>
                   (<[l := fst (snd called)]> (<[l := User_new i p]> (heap w)))
    /\ env w4 = snd (snd subscribed)
    /\ log w4 = log w ++ [UserConfirm l]
    /\ currentUser w4 = currentUser w.
Proof.
  intros Hw l called subscribed. unfold register, User_alloc. fold l.
  unfold isUserExist in *. simpl. rewrite Hw. simpl.
  unfold User_confirm. simpl. rewrite lookup_insert_eq.
  unfold subscribed, called.
  destruct (user_confirm (User_new i p, env w)) as [o [u1 e1]]. simpl.
  unfold Rx.subscribe, onUser. simpl. rewrite lookup_insert_eq.
  destruct (o (u1, e1)) as [out [u2 e2]]. simpl.
  eexists. split; [reflexivity |]. simpl. auto 6.
Qed.

Lemma register_present i p w :
  isUserExist w = true ->
  snd (register user_confirm i p w)
  = setUsers (<[i := fresh (dom (heap w))]> (users w))
      (setHeap (<[fresh (dom (heap w)) := User_new i p]> (heap w)) w).
Proof.
  intros Hw. unfold register, User_alloc. unfold isUserExist in *. simpl.
  rewrite Hw. reflexivity.
Qed.

(** X2. [register] asks for a confirmation exactly when there is no
    current user. Then the new instance becomes the current user as soon
    as the confirmation delivers a value, whichever value it is (also
    [false]), and the current user is left alone when it delivers none;
    with a current user, the instance is stored as constructed,
    unconfirmed, and nothing else happens. *)
Theorem register_confirms_only_without_current_user :
  forall (i p : string) (w : FWorld),
    (isUserExist w = false ->
     let l := fresh (dom (heap w)) in
     let called := user_confirm (User_new i p, env w) in
     let subscribed := fst called (snd called) in
     currentUser (snd (register user_confirm i p w))
     = match Rx.values (fst subscribed) with
       | [] => currentUser w
       | _ :: _ => ref l
       end
     /\ heap (snd (register user_confirm i p w)) !! l = Some (fst (snd subscribed))
     /\ env (snd (register user_confirm i p w)) = snd (snd subscribed)
     /\ log (snd (register user_confirm i p w)) = log w ++ [UserConfirm l])
    /\ (isUserExist w = true ->
        snd (register user_confirm i p w)
        = setUsers (<[i := fresh (dom (heap w))]> (users w))
            (setHeap (<[fresh (dom (heap w)) := User_new i p]> (heap w)) w)).
Proof.
  intros i p w. split.
  - intros Hw l called subscribed.
    destruct (register_absent i p w Hw) as (w4 & Hreg & _ & Hh & He & Hl & Hc).
    fold l called subscribed in Hreg, Hh, He, Hl.
    pose proof (fold_setCurrentUser_frame (A := bool) (ref l)
                  (Rx.values (fst subscribed)) w4) as (_ & Hh' & He' & Hl' & Hc').
    rewrite Hreg. cbn [snd].
    rewrite Hh', He', Hl', Hc', Hh, He, Hl, Hc, lookup_insert_eq. auto.
  - apply register_present.
Qed.

(** X3. Registering an id again stores a new instance: [one(id)] is the
    later instance, the earlier one stays in existence but is no longer
    found under the id. The current user is not replaced: when the first
    registration made its instance the current user, [one(id)] and the
    current user are different instances from then on. *)
Theorem register_again_replaces_cached_instance_only :
  forall (i p p' : string) (w : FWorld),
    fst (register user_confirm i p' (snd (register user_confirm i p w)))
    <> fst (register user_confirm i p w)
    /\ one i (snd (register user_confirm i p' (snd (register user_confirm i p w))))
       = ref (fst (register user_confirm i p' (snd (register user_confirm i p w))))
    /\ is_Some (heap (snd (register user_confirm i p' (snd (register user_confirm i p w))))
                  !! fst (register user_confirm i p w))
    /\ (currentUser (snd (register user_confirm i p w))
        = ref (fst (register user_confirm i p w)) ->
        currentUser (snd (register user_confirm i p' (snd (register user_confirm i p w))))
        = ref (fst (register user_confirm i p w))
        /\ one i (snd (register user_confirm i p' (snd (register user_confirm i p w))))
           <> currentUser
                (snd (register user_confirm i p' (snd (register user_confirm i p w))))).
Proof.
  intros i p p' w.
  pose proof (register_spec user_confirm i p w) as (Hl1 & _ & Hs1 & _).
  set (w1 := snd (register user_confirm i p w)) in *.
  set (l1 := fst (register user_confirm i p w)) in *.
  pose proof (register_spec user_confirm i p' w1) as (Hl2 & Hu2 & _ & Hh2).
  set (w2 := snd (register user_confirm i p' w1)) in *.
  set (l2 := fst (register user_confirm i p' w1)) in *.
  assert (Hne : l2 <> l1).
  { rewrite Hl2. intros Heq.
    apply (is_fresh (dom (heap w1))). rewrite Heq, Hl1.
    apply elem_of_dom. rewrite <- Hl1. exact Hs1. }
  assert (Hone : one i w2 = ref l2).
  { now rewrite one_lookup, Hu2, <- Hl2, lookup_insert_eq. }
  split_and!.
  - exact Hne.
  - exact Hone.
  - rewrite Hh2 by (rewrite <- Hl2; congruence). rewrite Hl1. rewrite <- Hl1. exact Hs1.
  - intros Hcur.
    assert (Hcur2 : currentUser w2 = ref l1).
    { unfold w2.
      rewrite register_present; [exact Hcur |].
      unfold isUserExist. now rewrite Hcur. }
    split; [exact Hcur2 |]. rewrite Hone, Hcur2. congruence.
Qed.

(** ** The searches, subscribed *)

Variable fetcher_searchForCourses : CoursesOption -> Method Env (list Course).
Variable fetcher_searchForPeople : PeopleOption -> Method Env (list Person).
Variable seeker_searchForCourses : CoursesOption -> Method Env (list Course).
Variable seeker_searchForPeople : PeopleOption -> Method Env (list Person).

Lemma onEnv_eq {A} (o : Rx.Observable Env A) w :
  onEnv o w = (fst (o (env w)), setEnv (snd (o (env w))) w).
Proof. unfold onEnv. now destruct (o (env w)). Qed.

Lemma live_present {A} flag msg (o : Rx.Observable Env A) w :
  isUserExist w = true ->
  (Rx.merge flag (requireCurrentUser msg) (onEnv o) : FObs A) w
  = (relayed (fst (o (env w))), setEnv (snd (o (env w))) w).
Proof.
  intros Hw. rewrite merge_guard_present by exact Hw. now rewrite onEnv_eq.
Qed.

Lemma live_absent {A} flag msg (o : Rx.Observable Env A) w :
  isUserExist w = false ->
  (Rx.merge flag (requireCurrentUser msg) (onEnv o) : FObs A) w
  = (unauthorized msg, if flag then setEnv (snd (o (env w))) w else w).
Proof.
  intros Hw. rewrite merge_guard_absent_state by exact Hw. now rewrite onEnv_eq.
Qed.

Lemma live_never_completes {A} flag msg (o : Rx.Observable Env A) w :
  Rx.terminal (fst ((Rx.merge flag (requireCurrentUser msg) (onEnv o) : FObs A) w))
  <> Rx.Completed.
Proof.
  destruct (isUserExist w) eqn:Hw.
  - rewrite live_present by exact Hw. simpl.
    destruct (Rx.terminal (fst (o (env w)))); discriminate.
  - rewrite live_absent by exact Hw. discriminate.
Qed.

(** X4. The observable of an online search never completes, in whatever
    state it is subscribed. Subscribed while there is a current user, it
    passes on what the observable of the Fetcher delivers, values and
    error, and the only state it changes is that of the Fetcher. *)
Theorem online_search_relays_and_never_completes :
  forall (flag : bool) (optC : CoursesOption) (optP : PeopleOption)
         (callback : option nat) (w0 w : FWorld),
    (Rx.terminal (fst (fst (searchForCourses fetcher_searchForCourses flag optC
                              callback w0) w)) <> Rx.Completed
     /\ (isUserExist w = true ->
         fst (searchForCourses fetcher_searchForCourses flag optC callback w0) w
         = (relayed (fst (fst (fetcher_searchForCourses optC (env w0)) (env w))),
            setEnv (snd (fst (fetcher_searchForCourses optC (env w0)) (env w))) w)))
    /\ (Rx.terminal (fst (fst (searchForPeople fetcher_searchForPeople flag optP
                                 callback w0) w)) <> Rx.Completed
        /\ (isUserExist w = true ->
            fst (searchForPeople fetcher_searchForPeople flag optP callback w0) w
            = (relayed (fst (fst (fetcher_searchForPeople optP (env w0)) (env w))),
               setEnv (snd (fst (fetcher_searchForPeople optP (env w0)) (env w))) w))).
Proof.
  intros flag optC optP callback w0 w.
  rewrite searchForCourses_spec, searchForPeople_spec. cbn [fst].
  split; (split; [apply live_never_completes | apply live_present]).
Qed.

Lemma combined_absent {A} flag msg (o s : Rx.Observable Env A) w :
  isUserExist w = false ->
  (Rx.catch (Rx.merge flag (requireCurrentUser msg) (onEnv o)) (onEnv s) : FObs A) w
  = (fst (s (if flag then snd (o (env w)) else env w)),
     setEnv (snd (s (if flag then snd (o (env w)) else env w))) w).
Proof.
  intros Hw. unfold Rx.catch. rewrite live_absent by exact Hw. simpl.
  rewrite onEnv_eq. destruct flag; simpl;
    destruct (s _) as [[vs t] e2]; reflexivity.
Qed.

Lemma combined_present {A} flag msg (o s : Rx.Observable Env A) w :
  isUserExist w = true ->
  (Rx.catch (Rx.merge flag (requireCurrentUser msg) (onEnv o)) (onEnv s) : FObs A) w
  = match Rx.terminal (fst (o (env w))) with
    | Rx.Failed _ =>
        (continued (fst (o (env w))) (fst (s (snd (o (env w))))),
         setEnv (snd (s (snd (o (env w))))) w)
    | _ => (relayed (fst (o (env w))), setEnv (snd (o (env w))) w)
    end.
Proof.
  intros Hw. unfold Rx.catch. rewrite live_present by exact Hw.
  unfold relayed at 1. cbn [Rx.terminal].
  destruct (Rx.terminal (fst (o (env w)))) eqn:Ht; try reflexivity.
  rewrite onEnv_eq. simpl. reflexivity.
Qed.

(** X5. Without a current user the combined search does not fail with
    the 401 error of the guard: its subscriber is told exactly what the
    observable of the Seeker delivers, values and end, subscribed in the
    state of the collaborators at that moment or, where Rx subscribes
    the Fetcher's observable first, in the state that subscription
    leaves. *)
Theorem combined_search_without_user_falls_back :
  forall (flag : bool) (optC : CoursesOption) (optP : PeopleOption)
         (callback : option nat) (w0 w : FWorld),
    isUserExist w = false ->
    (let fetched := fst (fetcher_searchForCourses optC (env w0)) in
     let sought := fst (seeker_searchForCourses optC
                          (snd (fetcher_searchForCourses optC (env w0)))) in
     fst (fst (searchForCoursesWithCache fetcher_searchForCourses
                 seeker_searchForCourses flag optC callback w0) w)
     = fst (sought (env w))
     \/ fst (fst (searchForCoursesWithCache fetcher_searchForCourses
                    seeker_searchForCourses flag optC callback w0) w)
        = fst (sought (snd (fetched (env w)))))
    /\ (let fetched := fst (fetcher_searchForPeople optP (env w0)) in
        let sought := fst (seeker_searchForPeople optP
                             (snd (fetcher_searchForPeople optP (env w0)))) in
        fst (fst (searchForPeopleWithCache fetcher_searchForPeople
                    seeker_searchForPeople flag optP callback w0) w)
        = fst (sought (env w))
        \/ fst (fst (searchForPeopleWithCache fetcher_searchForPeople
                       seeker_searchForPeople flag optP callback w0) w)
           = fst (sought (snd (fetched (env w))))).
Proof.
  intros flag optC optP callback w0 w Hw. split.
  - rewrite searchForCoursesWithCache_spec; cbv zeta.
    rewrite searchForCourses_spec; cbv zeta.
    rewrite searchForCoursesInCache_spec; cbv zeta. cbn [fst snd nodifyObservable].
    rewrite (combined_absent flag coursesMessage _ _ w Hw). cbn [fst].
    destruct flag; [now right | now left].
  - rewrite searchForPeopleWithCache_spec; cbv zeta.
    rewrite searchForPeople_spec; cbv zeta.
    rewrite searchForPeopleInCache_spec; cbv zeta. cbn [fst snd nodifyObservable].
    rewrite (combined_absent flag peopleMessage _ _ w Hw). cbn [fst].
    destruct flag; [now right | now left].
Qed.

(** X6. With a current user the combined search passes on what the
    Fetcher's observable delivers, without completing and without
    subscribing the Seeker's observable, as long as the Fetcher does not
    fail. When the Fetcher fails, the values it delivered before the
    error are followed by all that the Seeker's observable delivers,
    subscribed in the state the Fetcher left. *)
Theorem combined_search_with_user :
  forall (flag : bool) (optC : CoursesOption) (optP : PeopleOption)
         (callback : option nat) (w0 w : FWorld),
    isUserExist w = true ->
    (let fetched := fst (fetcher_searchForCourses optC (env w0)) (env w) in
     let sought := fst (seeker_searchForCourses optC
                          (snd (fetcher_searchForCourses optC (env w0))))
                     (snd fetched) in
     fst (searchForCoursesWithCache fetcher_searchForCourses seeker_searchForCourses
            flag optC callback w0) w
     = match Rx.terminal (fst fetched) with
       | Rx.Failed _ => (continued (fst fetched) (fst sought), setEnv (snd sought) w)
       | _ => (relayed (fst fetched), setEnv (snd fetched) w)
       end)
    /\ (let fetched := fst (fetcher_searchForPeople optP (env w0)) (env w) in
        let sought := fst (seeker_searchForPeople optP
                             (snd (fetcher_searchForPeople optP (env w0))))
                        (snd fetched) in
        fst (searchForPeopleWithCache fetcher_searchForPeople seeker_searchForPeople
               flag optP callback w0) w
        = match Rx.terminal (fst fetched) with
          | Rx.Failed _ => (continued (fst fetched) (fst sought), setEnv (snd sought) w)
          | _ => (relayed (fst fetched), setEnv (snd fetched) w)
          end).
Proof.
  intros flag optC optP callback w0 w Hw. split.
  - rewrite searchForCoursesWithCache_spec; cbv zeta.
    rewrite searchForCourses_spec; cbv zeta.
    rewrite searchForCoursesInCache_spec; cbv zeta. cbn [fst snd nodifyObservable].
    apply (combined_present flag coursesMessage _ _ w Hw).
  - rewrite searchForPeopleWithCache_spec; cbv zeta.
    rewrite searchForPeople_spec; cbv zeta.
    rewrite searchForPeopleInCache_spec; cbv zeta. cbn [fst snd nodifyObservable].
    apply (combined_present flag peopleMessage _ _ w Hw).
Qed.

(** ** Clients *)

Variable flag : bool.

Abbreviation step' :=
  (step fetcher_searchForCourses fetcher_searchForPeople seeker_searchForCourses
     seeker_searchForPeople user_confirm flag).
Abbreviation run' :=
  (run fetcher_searchForCourses fetcher_searchForPeople seeker_searchForCourses
     seeker_searchForPeople user_confirm flag).

Lemma keeps_refl w : keeps w w.
Proof. split; reflexivity. Qed.

Lemma keeps_trans w1 w2 w3 : keeps w1 w2 -> keeps w2 w3 -> keeps w1 w3.
Proof. intros [H1 H2] [H3 H4]. split; congruence. Qed.

Lemma quiet_keeps {A} (o : FObs A) w : quiet o -> keeps w (snd (o w)).
Proof. intros Ho. destruct (Ho w) as (Hu & Hc & _). now split. Qed.

Lemma nodifyObservable_keeps {A} (wrap : A -> Payload) (o : FObs A) callback w1 w :
  quiet o -> keeps w w1 -> keeps w (nodifyObservable wrap o callback w1).
Proof.
  intros Ho Hk. apply (keeps_trans _ w1); [exact Hk |].
  destruct (nodifyObservable_quiet wrap o callback w1 Ho) as (Hu & Hc & _).
  now split.
Qed.

(** The returned observable and the state after each call that returns
    one. *)
Lemma searchForCourses_keeps opt callback w :
  quiet (fst (searchForCourses fetcher_searchForCourses flag opt callback w))
  /\ keeps w (snd (searchForCourses fetcher_searchForCourses flag opt callback w)).
Proof.
  rewrite searchForCourses_spec. cbn [fst snd]. split; [apply quiet_live |].
  apply nodifyObservable_keeps; [apply quiet_live | split; reflexivity].
Qed.

Lemma searchForPeople_keeps opt callback w :
  quiet (fst (searchForPeople fetcher_searchForPeople flag opt callback w))
  /\ keeps w (snd (searchForPeople fetcher_searchForPeople flag opt callback w)).
Proof.
  rewrite searchForPeople_spec. cbn [fst snd]. split; [apply quiet_live |].
  apply nodifyObservable_keeps; [apply quiet_live | split; reflexivity].
Qed.

Lemma searchForCoursesInCache_keeps opt callback w :
  quiet (fst (searchForCoursesInCache seeker_searchForCourses opt callback w))
  /\ keeps w (snd (searchForCoursesInCache seeker_searchForCourses opt callback w)).
Proof.
  rewrite searchForCoursesInCache_spec. cbn [fst snd]. split; [apply quiet_onEnv |].
  apply nodifyObservable_keeps; [apply quiet_onEnv | split; reflexivity].
Qed.

Lemma searchForPeopleInCache_keeps opt callback w :
  quiet (fst (searchForPeopleInCache seeker_searchForPeople opt callback w))
  /\ keeps w (snd (searchForPeopleInCache seeker_searchForPeople opt callback w)).
Proof.
  rewrite searchForPeopleInCache_spec. cbn [fst snd]. split; [apply quiet_onEnv |].
  apply nodifyObservable_keeps; [apply quiet_onEnv | split; reflexivity].
Qed.

Lemma searchForCoursesWithCache_keeps opt callback w :
  quiet (fst (searchForCoursesWithCache fetcher_searchForCourses
                seeker_searchForCourses flag opt callback w))
  /\ keeps w (snd (searchForCoursesWithCache fetcher_searchForCourses
                     seeker_searchForCourses flag opt callback w)).
Proof.
  rewrite searchForCoursesWithCache_spec; cbv zeta.
  rewrite searchForCourses_spec; cbv zeta.
  rewrite searchForCoursesInCache_spec; cbv zeta. cbn [fst snd nodifyObservable].
  split; [apply quiet_combined |].
  apply nodifyObservable_keeps; [apply quiet_combined | split; reflexivity].
Qed.

Lemma searchForPeopleWithCache_keeps opt callback w :
  quiet (fst (searchForPeopleWithCache fetcher_searchForPeople
                seeker_searchForPeople flag opt callback w))
  /\ keeps w (snd (searchForPeopleWithCache fetcher_searchForPeople
                     seeker_searchForPeople flag opt callback w)).
Proof.
  rewrite searchForPeopleWithCache_spec; cbv zeta.
  rewrite searchForPeople_spec; cbv zeta.
  rewrite searchForPeopleInCache_spec; cbv zeta. cbn [fst snd nodifyObservable].
  split; [apply quiet_combined |].
  apply nodifyObservable_keeps; [apply quiet_combined | split; reflexivity].
Qed.

Lemma verify_keeps i p callback w :
  quiet (fst (verify user_confirm i p callback w))
  /\ keeps w (snd (verify user_confirm i p callback w)).
Proof.
  rewrite verify_spec. cbv zeta. cbn [fst snd].
  set (l := fresh (dom (heap w))).
  set (w1 := setHeap (<[l := User_new i p]> (heap w)) w).
  pose proof (User_confirm_frame user_confirm l w1) as (Hu & Hc & _ & _ & _ & Hq & _).
  split; [exact Hq |].
  apply nodifyObservable_keeps; [exact Hq | now split].
Qed.

Lemma register_users i p w :
  users (snd (register user_confirm i p w))
  = <[i := fst (register user_confirm i p w)]> (users w).
Proof.
  pose proof (register_spec user_confirm i p w) as (Hl & Hu & _). now rewrite Hl.
Qed.

Lemma sound_holding (h : Held) (r : FWorld) (c : Client) :
  sound c -> quietHeld h -> sound (holding h r c).
Proof.
  intros Hc Hh. unfold sound, holding. simpl.
  apply Forall_app. split; [exact Hc | now constructor].
Qed.

Lemma subscribeHeld_keeps (h : Held) w : quietHeld h -> keeps w (subscribeHeld h w).
Proof. destruct h; simpl; apply quiet_keeps. Qed.

(** One step of a sound client. *)
Lemma step_sound (s : Step) (c : Client) :
  sound c ->
  sound (step' s c)
  /\ (isRegistration s = false -> keeps (world c) (world (step' s c)))
  /\ (forall k, is_Some (users (world c) !! k) ->
                is_Some (users (world (step' s c)) !! k)).
Proof.
  intros Hc.
  assert (Hgen : forall (h : Held) (r : FWorld),
             quietHeld h /\ keeps (world c) r ->
             sound (holding h r c)
             /\ (keeps (world c) (world (holding h r c)))
             /\ (forall k, is_Some (users (world c) !! k) ->
                           is_Some (users (world (holding h r c)) !! k))).
  { intros h r [Hq [Hu Hcu]]. simpl. split_and!.
    - now apply sound_holding.
    - now split.
    - intros k. now rewrite Hu. }
  destruct s as [i | i p | i p cb | opt cb | opt cb | opt cb | opt cb | opt cb | opt cb | n];
    unfold step; cbv beta iota zeta; cbn [world held isRegistration].
  - split_and!; auto using keeps_refl.
  - split_and!.
    + exact Hc.
    + discriminate.
    + intros k Hk. rewrite register_users.
      destruct (decide (i = k)) as [-> | Hne];
        [rewrite lookup_insert_eq; eauto | now rewrite lookup_insert_ne].
  - destruct (Hgen (HeldFlag (fst (verify user_confirm i p cb (world c))))
                (snd (verify user_confirm i p cb (world c)))
                (verify_keeps i p cb (world c))) as (H1 & H2 & H3); auto.
  - destruct (Hgen (HeldCourses _) _ (searchForCourses_keeps opt cb (world c)))
      as (H1 & H2 & H3); auto.
  - destruct (Hgen (HeldCourses _) _ (searchForCoursesInCache_keeps opt cb (world c)))
      as (H1 & H2 & H3); auto.
  - destruct (Hgen (HeldCourses _) _ (searchForCoursesWithCache_keeps opt cb (world c)))
      as (H1 & H2 & H3); auto.
  - destruct (Hgen (HeldPeople _) _ (searchForPeople_keeps opt cb (world c)))
      as (H1 & H2 & H3); auto.
  - destruct (Hgen (HeldPeople _) _ (searchForPeopleInCache_keeps opt cb (world c)))
      as (H1 & H2 & H3); auto.
  - destruct (Hgen (HeldPeople _) _ (searchForPeopleWithCache_keeps opt cb (world c)))
      as (H1 & H2 & H3); auto.
  - destruct (held c !! n) as [h |] eqn:Hn; [| split_and!; auto using keeps_refl].
    assert (Hq : quietHeld h).
    { unfold sound in Hc. rewrite Forall_lookup in Hc. exact (Hc n h Hn). }
    destruct (subscribeHeld_keeps h (world c) Hq) as [Hu Hcu].
    simpl. split_and!; auto.
    + now split.
    + intros k. now rewrite Hu.
Qed.

Lemma run_cons (s : Step) (steps : list Step) (c : Client) :
  run' (s :: steps) c = run' steps (step' s c).
Proof. reflexivity. Qed.

(** X7. Only [register] sets the current user: in a run of a client
    without a call of [register] (calls of [one], of [verify] and of the
    six searches, and subscriptions to the observables they returned, in
    any order), started when no confirmation of an earlier registration
    is still to arrive, the current user does not change; neither
    [verify] nor a search establishes one. *)
Theorem only_register_sets_current_user :
  forall (steps : list Step) (c : Client),
    sound c ->
    forallb (fun s => negb (isRegistration s)) steps = true ->
    currentUser (world (run' steps c)) = currentUser (world c)
    /\ isUserExist (world (run' steps c)) = isUserExist (world c).
Proof.
  assert (Hcur : forall (steps : list Step) (c : Client),
             sound c ->
             forallb (fun s => negb (isRegistration s)) steps = true ->
             currentUser (world (run' steps c)) = currentUser (world c)).
  { induction steps as [| s steps IH]; intros c Hc; [reflexivity |].
    rewrite run_cons. simpl. intros [Hns Hrest]%andb_prop.
    destruct (step_sound s c Hc) as (Hs & Hk & _).
    rewrite (IH (step' s c) Hs Hrest).
    apply Hk. now destruct (isRegistration s). }
  intros steps c Hc Hsteps. split; [now apply Hcur |].
  unfold isUserExist. now rewrite Hcur.
Qed.

(** X8. In every run of a client, an id that is registered stays
    registered: [one(id)] never goes back to [null]. Only [register]
    writes to [cacher.users]: after a run without a call of [register],
    [one] answers for every id as before. *)
Theorem registered_ids_stay_registered :
  forall (steps : list Step) (c : Client),
    sound c ->
    (forall k, one k (world c) <> null -> one k (world (run' steps c)) <> null)
    /\ (forallb (fun s => negb (isRegistration s)) steps = true ->
        forall k, one k (world (run' steps c)) = one k (world c)).
Proof.
  intros steps c Hc.
  assert (Hone : forall w k, one k w <> null
                             <-> is_Some (users w !! k) \/ isInherited k = true).
  { intros w k. rewrite one_lookup.
    destruct (users w !! k) as [l |];
      [split; [intros _; left; eauto | intros _; discriminate] |].
    destruct (isInherited k).
    - split; [intros _; now right | intros _; discriminate].
    - split; [intros H; now destruct H | intros [[l Hl] | Hi]; discriminate]. }
  revert c Hc. induction steps as [| s steps IH]; intros c Hc; [split; auto |].
  rewrite run_cons.
  destruct (step_sound s c Hc) as (Hs & Hk & Hreg).
  destruct (IH (step' s c) Hs) as [IH1 IH2]. split.
  - intros k Hk1. apply IH1. apply Hone. apply Hone in Hk1 as [Hk1 | Hk1]; auto.
  - simpl. intros [Hns Hrest]%andb_prop k. rewrite IH2 by exact Hrest.
    destruct Hk as [Hu _]; [now destruct (isRegistration s) |].
    rewrite !one_lookup. now rewrite Hu.
Qed.

End LifecycleFacts.

(* ===================================================================== *)
(** * The scenario at work *)

Module ScenarioFacts.
Import Sample Scenario.
Local Open Scope list_scope.

Lemma constructor_picks_first_confirmed_witness :
  currentUser (Application_constructor [ "2011019050001"; "2012019050020" ] twoUsers)
  = ref 2%positive.
Proof.
  destruct (constructor_picks_first_confirmed
              [ "2011019050001"; "2012019050020" ] twoUsers)
    as (_ & _ & _ & _ & _ & Hfirst & _).
  apply Hfirst. exists [ "2011019050001" ], "2012019050020", [].
  split; [reflexivity | split].
  - split; [reflexivity |]. eexists. split; reflexivity.
  - intros k' l' Hin (Hk & u & Hu & Hc).
    apply list_elem_of_singleton in Hin. subst k'.
    vm_compute in Hk. injection Hk as <-.
    vm_compute in Hu. injection Hu as <-. discriminate.
Defined.

Lemma register_confirms_only_without_current_user_witness :
  currentUser (snd (register confirm "2012019050020" "000000" (start reachable)))
  = ref (fresh (dom (heap (start reachable)))).
Proof.
  destruct (register_confirms_only_without_current_user confirm
              "2012019050020" "000000" (start reachable)) as [Habsent _].
  destruct (Habsent eq_refl) as [Hcurrent _]. exact Hcurrent.
Defined.

Lemma register_again_replaces_cached_instance_only_witness :
  one "2012019050020"
    (snd (register confirm "2012019050020" "changed"
            (snd (register confirm "2012019050020" "811073" (start reachable)))))
  <> currentUser
       (snd (register confirm "2012019050020" "changed"
               (snd (register confirm "2012019050020" "811073" (start reachable))))).
Proof.
  destruct (register_again_replaces_cached_instance_only confirm
              "2012019050020" "811073" "changed" (start reachable))
    as (_ & _ & _ & Hstale).
  apply Hstale. vm_compute. reflexivity.
Defined.

Lemma online_search_relays_and_never_completes_witness :
  fst (fst (searchForCourses fetchCourses true (byInstructor "Li") None
              (signedIn reachable))
         (signedIn reachable))
  = {| Rx.values := [[ {| title := "Compilers"; instructor := "Li" |} ]];
       Rx.terminal := Rx.Open |}.
Proof.
  destruct (online_search_relays_and_never_completes fetchCourses fetchPeople true
              (byInstructor "Li") (byName "Li") None
              (signedIn reachable) (signedIn reachable)) as [[_ Hrelay] _].
  rewrite (Hrelay eq_refl). reflexivity.
Defined.

Lemma combined_search_without_user_falls_back_witness :
  fst (fst (searchForCoursesWithCache fetchCourses (Seeker_search cachedCourses) false
              [] (Some 5%nat) (start offline))
         (start offline))
  = {| Rx.values := [[ {| title := "Logic"; instructor := "Wang" |} ]];
       Rx.terminal := Rx.Completed |}.
Proof.
  destruct (combined_search_without_user_falls_back fetchCourses fetchPeople
              (Seeker_search cachedCourses) (Seeker_search cachedPeople)
              false [] [] (Some 5%nat) (start offline) (start offline) eq_refl)
    as [[Hcourses | Hcourses] _]; rewrite Hcourses; reflexivity.
Defined.

Lemma combined_search_with_user_witness :
  fst (fst (searchForCoursesWithCache fetchCourses (Seeker_search cachedCourses) true
              [] None (signedIn offline))
         (signedIn offline))
  = {| Rx.values := [[ {| title := "Logic"; instructor := "Wang" |} ]];
       Rx.terminal := Rx.Completed |}.
Proof.
  destruct (combined_search_with_user fetchCourses fetchPeople
              (Seeker_search cachedCourses) (Seeker_search cachedPeople)
              true [] [] None (signedIn offline) (signedIn offline) eq_refl)
    as [Hcourses _].
  rewrite Hcourses. reflexivity.
Defined.

Lemma only_register_sets_current_user_witness :
  currentUser (world (Scenario.run searches (client (signedIn reachable))))
  = ref 1%positive
  /\ isUserExist (world (Scenario.run searches (client (start reachable)))) = false.
Proof.
  split.
  - apply (only_register_sets_current_user confirm fetchCourses fetchPeople
             (Seeker_search cachedCourses) (Seeker_search cachedPeople) true
             searches (client (signedIn reachable)) (List.Forall_nil _)).
    reflexivity.
  - apply (only_register_sets_current_user confirm fetchCourses fetchPeople
             (Seeker_search cachedCourses) (Seeker_search cachedPeople) true
             searches (client (start reachable)) (List.Forall_nil _)).
    reflexivity.
Defined.

Lemma registered_ids_stay_registered_witness :
  one "2012019050020" (world (Scenario.run session (client (signedIn reachable))))
  <> null.
Proof.
  destruct (registered_ids_stay_registered confirm fetchCourses fetchPeople
              (Seeker_search cachedCourses) (Seeker_search cachedPeople) true
              session (client (signedIn reachable)) (List.Forall_nil _)) as [Hstay _].
  apply Hstay. vm_compute. discriminate.
Defined.

(** The session from a fresh start: the first registration signs the
    user in, the second replaces only the cached instance. *)
Example session_from_start :
  currentUser (world (Scenario.run session (client (start reachable))))
  = ref (fst (register confirm "2012019050020" "811073" (start reachable)))
  /\ one "2012019050020" (world (Scenario.run session (client (start reachable))))
     <> currentUser (world (Scenario.run session (client (start reachable))))
  /\ length (held (Scenario.run session (client (start reachable)))) = 3%nat.
Proof. vm_compute. split; [reflexivity | split; [discriminate | reflexivity]]. Qed.

End ScenarioFacts.
